(** * Stock valuation service: scoring, combination and cache

    A shallow embedding of [app.py]: the two scorers
    ([calculate_rational_score], [calculate_adaptive_score]), the weighted
    combination and recommendation bucketing of the [analyze] handler, and
    the time-boxed cache ([get_cached_data], [cache_data]).

    Conventions of the embedding.
    - Python numbers are [PInt] (an [int]) or [PFloat] (a [float]); float
      arithmetic is carried out exactly, over the rationals [Q].  Non-finite
      floats (nan, inf) are not values of the model; the two places where
      the adaptive scorer divides by zero are written out case by case.
      Module [Binary64] evaluates the combination formula on IEEE binary64
      numbers, where rounding is visible.
    - A Python [dict] with string keys is a [gmap string pyval].
    - Response dictionaries live in a heap of objects: the cache stores a
      reference, and the handler mutates the referenced object in place.
    - An exception is the text [str(e)] it carries.
    - A Python text is the string of its UTF-8 bytes.  What [str.upper],
      [str.lower] and [str.strip] do on a text of ASCII characters is
      written out; what they do on any other text, and what [float] does
      on a text, is Python's own and is left open ([builtins]): the
      handler is stated for every such behaviour.
    - An [int] among the fundamentals is taken to be within the range of a
      float, as the numbers of the provider are. *)

From Stdlib Require Import ZArith QArith Qround Qabs Ascii String List Lia Lqa.
From Stdlib Require Import PrimFloat.
From stdpp Require Import base option strings gmap fin_maps.

Local Open Scope Z_scope.
Local Open Scope string_scope.

(** ** Python values *)

Inductive pyval :=
| PNone
| PInt (z : Z)
| PFloat (q : Q)
| PStr (s : string)
| PList (l : list string).

(** A dictionary keyed by strings ([info], the request body, a response). *)
Abbreviation pydict := (gmap string pyval).

(** [str(e)] of a raised exception. *)
Inductive exn := Exn (msg : string).

Definition str_exn (e : exn) : string := let 'Exn m := e in m.

(** ** The error monad of the handler's [try] block *)

Definition result (A : Type) : Type := exn + A.

Definition ok {A} (a : A) : result A := inr a.
Definition raise {A} (msg : string) : result A := inl (Exn msg).

Definition rbind {A B} (m : result A) (k : A -> result B) : result B :=
  match m with
  | inl e => inl e
  | inr a => k a
  end.

Declare Scope result_scope.
Delimit Scope result_scope with result.
Notation "'do' x <- m ; k" := (rbind m (fun x => k))
  (at level 10, x name, m at level 100, k at level 200) : result_scope.

(** ** Built-in operations on values *)

(** [type(v).__name__] *)
Definition type_name (v : pyval) : string :=
  match v with
  | PNone => "NoneType"
  | PInt _ => "int"
  | PFloat _ => "float"
  | PStr _ => "str"
  | PList _ => "list"
  end.

(** [q < r] on rationals, as a boolean. *)
Definition Qltb (q r : Q) : bool := negb (Qle_bool r q).

(** [bool(v)]: the truth value that [if v:] tests. *)
Definition truthy (v : pyval) : bool :=
  match v with
  | PNone => false
  | PInt z => negb (z =? 0)%Z
  | PFloat q => negb (Qeq_bool q 0)
  | PStr s => negb (String.eqb s "")
  | PList l => match l with [] => false | _ => true end
  end.

(** The number a value denotes, when it is one. *)
Definition as_num (v : pyval) : option Q :=
  match v with
  | PInt z => Some (inject_Z z)
  | PFloat q => Some q
  | _ => None
  end.

(** [d.get(key, default)] *)
Definition dict_get (d : pydict) (key : string) (default : pyval) : pyval :=
  match d !! key with
  | Some v => v
  | None => default
  end.

(** ** Strings

    The three methods below are written out for a text of ASCII characters;
    [str_upper], [str_lower] and [str_strip] further down use them on such
    a text only. *)

(** The white space among the ASCII characters. *)
Definition is_space (c : ascii) : bool :=
  let n := nat_of_ascii c in
  ((9 <=? n) && (n <=? 13) || (28 <=? n) && (n <=? 32))%nat.

(** The upper case and the lower case of an ASCII character. *)
Definition upper_ascii (c : ascii) : ascii :=
  let n := nat_of_ascii c in
  if ((97 <=? n) && (n <=? 122))%nat then ascii_of_nat (n - 32) else c.

Definition lower_ascii (c : ascii) : ascii :=
  let n := nat_of_ascii c in
  if ((65 <=? n) && (n <=? 90))%nat then ascii_of_nat (n + 32) else c.

Fixpoint str_map (f : ascii -> ascii) (s : string) : string :=
  match s with
  | EmptyString => EmptyString
  | String c s' => String (f c) (str_map f s')
  end.

(** [s.upper()] and [s.lower()] on a text of ASCII characters. *)
Definition upper (s : string) : string := str_map upper_ascii s.
Definition lower (s : string) : string := str_map lower_ascii s.

Fixpoint lstrip (s : string) : string :=
  match s with
  | EmptyString => EmptyString
  | String c s' => if is_space c then lstrip s' else s
  end.

Fixpoint rstrip (s : string) : string :=
  match s with
  | EmptyString => EmptyString
  | String c s' =>
      match rstrip s' with
      | EmptyString => if is_space c then EmptyString else String c EmptyString
      | t => String c t
      end
  end.

(** [s.strip()] on a text of ASCII characters: the white space of ASCII is
    the characters 9 to 13 and 28 to 32. *)
Definition strip (s : string) : string := rstrip (lstrip s).

(** The text has ASCII characters only. *)
Fixpoint is_ascii (s : string) : bool :=
  match s with
  | EmptyString => true
  | String c s' => (nat_of_ascii c <? 128)%nat && is_ascii s'
  end.

(** What is left open of Python's built-ins: [float] on a text (the number
    it denotes, or the [ValueError] it raises), and [str.upper],
    [str.lower] and [str.strip] on a text that has other characters than
    those of ASCII (the case mappings and the white space of Unicode). *)
Record builtins := Builtins {
  float_of_str : string -> result Q;
  unicode_upper : string -> string;
  unicode_lower : string -> string;
  unicode_strip : string -> string
}.

(** [s.upper()], [s.lower()] and [s.strip()] on any text. *)
Definition str_upper (py : builtins) (s : string) : string :=
  if is_ascii s then upper s else unicode_upper py s.

Definition str_lower (py : builtins) (s : string) : string :=
  if is_ascii s then lower s else unicode_lower py s.

Definition str_strip (py : builtins) (s : string) : string :=
  if is_ascii s then strip s else unicode_strip py s.

(** [needle in hay] *)
Fixpoint contains (needle hay : string) : bool :=
  String.prefix needle hay ||
  match hay with
  | EmptyString => false
  | String _ hay' => contains needle hay'
  end.

(** A string that does not start with a space. *)
Definition starts_clean (s : string) : Prop :=
  match s with
  | EmptyString => True
  | String c _ => is_space c = false
  end.

(** ** Rounding and number formatting *)

(** Nearest integer, ties to even. *)
Definition round_half_even (q : Q) : Z :=
  let n := Qnum q in
  let d := Zpos (Qden q) in
  let f := (n / d)%Z in
  match (2 * (n mod d) ?= d)%Z with
  | Lt => f
  | Gt => (f + 1)%Z
  | Eq => if Z.even f then f else (f + 1)%Z
  end.

(** [round(x, 2)] on a float. *)
Definition round2 (q : Q) : Q := Qred (inject_Z (round_half_even (q * 100)) / 100).

Definition digit_char (d : Z) : ascii := ascii_of_nat (48 + Z.to_nat d).

(** The decimal digits of [n], most significant first; at least one digit. *)
Fixpoint digits_fuel (fuel : nat) (n : Z) (acc : string) : string :=
  match fuel with
  | O => acc
  | S fuel' =>
      let acc' := String (digit_char (n mod 10)) acc in
      if (n / 10 =? 0)%Z then acc' else digits_fuel fuel' (n / 10) acc'
  end.

Definition string_of_nonneg (n : Z) : string :=
  digits_fuel (S (Z.to_nat (Z.log2 n))) n EmptyString.

(** The last [k] decimal digits of [n], zero padded. *)
Fixpoint frac_digits (k : nat) (n : Z) (acc : string) : string :=
  match k with
  | O => acc
  | S k' => frac_digits k' (n / 10) (String (digit_char (n mod 10)) acc)
  end.

(** [format(x, ".kf")] for [k >= 1]. *)
Definition format_fixed (k : nat) (q : Q) : string :=
  let scale := (10 ^ Z.of_nat k)%Z in
  let m := round_half_even (Qabs q * inject_Z scale) in
  (if Qltb q 0 then "-" else "") ++
  string_of_nonneg (m / scale) ++ "." ++ frac_digits k (m mod scale) EmptyString.

(** ** Scorers

    Both scorers accumulate an integer score and a list of reasons inside a
    [try] block whose handler only prints: an exception ends the block and
    what was accumulated so far is returned, clamped. *)

Record tally := Tally { score : Z; reasons : list string }.

Definition tally0 : tally := Tally 0 [].

(** [score += delta; reasons.append(why)] *)
Definition adjust (st : tally) (delta : Z) (why : string) : tally :=
  Tally (score st + delta) (reasons st ++ [why]).

(** A rule of a scorer: [None] when it raises.  Every rule raises, if at
    all, in a comparison or an arithmetic operation that precedes its
    updates, so the tally at the exception is the tally it was given. *)
Definition rule := tally -> option tally.

(** The body of the [try] block: the rules in sequence, ended by the first
    one that raises. *)
Fixpoint try_rules (rules : list rule) (st : tally) : tally :=
  match rules with
  | [] => st
  | r :: rules' =>
      match r st with
      | Some st' => try_rules rules' st'
      | None => st
      end
  end.

(** [max(-50, min(50, score))] *)
Definition clamp (z : Z) : Z := Z.max (-50) (Z.min 50 z).

(** *** calculate_rational_score *)

Definition rule_pe (info : pydict) : rule := fun st =>
  let pe_ratio := dict_get info "trailingPE" PNone in
  let industry_pe := dict_get info "industryPE" (PInt 25) in
  if truthy pe_ratio then
    ipe ← as_num industry_pe;
    pe ← as_num pe_ratio;
    if Qltb pe (ipe * 0.8) then
      Some (adjust st (-20)
              ("Low P/E ratio (" ++ format_fixed 2 pe ++ " vs industry "
                 ++ format_fixed 2 ipe ++ ")"))
    else if Qltb (ipe * 1.2) pe then
      Some (adjust st 20
              ("High P/E ratio (" ++ format_fixed 2 pe ++ " vs industry "
                 ++ format_fixed 2 ipe ++ ")"))
    else Some st
  else Some st.

Definition rule_peg (info : pydict) : rule := fun st =>
  let peg_ratio := dict_get info "pegRatio" PNone in
  if truthy peg_ratio then
    peg ← as_num peg_ratio;
    if Qltb peg 1 then
      Some (adjust st (-15) ("Attractive PEG ratio (" ++ format_fixed 2 peg ++ ")"))
    else if Qltb 2 peg then
      Some (adjust st 15 ("High PEG ratio (" ++ format_fixed 2 peg ++ ")"))
    else Some st
  else Some st.

Definition rule_price_to_book (info : pydict) : rule := fun st =>
  let price_to_book := dict_get info "priceToBook" PNone in
  if truthy price_to_book then
    pb ← as_num price_to_book;
    if Qltb pb 1 then
      Some (adjust st (-15) ("Trading below book value (" ++ format_fixed 2 pb ++ ")"))
    else if Qltb 3 pb then
      Some (adjust st 10 ("High price-to-book (" ++ format_fixed 2 pb ++ ")"))
    else Some st
  else Some st.

Definition rule_profit_margin (info : pydict) : rule := fun st =>
  let profit_margin := dict_get info "profitMargins" PNone in
  if truthy profit_margin then
    pm ← as_num profit_margin;
    if Qltb 0.20 pm then
      Some (adjust st (-10)
              ("Strong profit margins (" ++ format_fixed 1 (pm * 100) ++ "%)"))
    else if Qltb pm 0.05 then
      Some (adjust st 10
              ("Weak profit margins (" ++ format_fixed 1 (pm * 100) ++ "%)"))
    else Some st
  else Some st.

(** The tally at the end of the [try] block, before clamping. *)
Definition rational_tally (info : pydict) : tally :=
  try_rules [rule_pe info; rule_peg info; rule_price_to_book info;
             rule_profit_margin info] tally0.

Definition calculate_rational_score (info : pydict) : Z * list string :=
  let st := rational_tally info in
  (clamp (score st), reasons st).

(** *** calculate_adaptive_score *)

(** One daily bar of the price history (the columns the scorer reads). *)
Record bar := Bar { Close : Q; High : Q; Low : Q }.

(** The last [n] elements of a list: the window of [rolling(window=n)] that
    [.iloc[-1]] selects. *)
Definition lastn {A} (n : nat) (l : list A) : list A :=
  skipn (length l - n) l.

Definition Qsum (l : list Q) : Q := fold_right Qplus 0%Q l.

(** [rolling(window=n).mean().iloc[-1]] on a series with at least [n] rows. *)
Definition rolling_mean_last (n : nat) (l : list Q) : Q :=
  Qsum (lastn n l) / inject_Z (Z.of_nat n).

(** [series.diff()] without its undefined first row. *)
Fixpoint diff (l : list Q) : list Q :=
  match l with
  | x :: (y :: _) as l' => (y - x)%Q :: diff l'
  | _ => []
  end.

Definition Qmaxb (x y : Q) : Q := if Qle_bool x y then y else x.
Definition Qminb (x y : Q) : Q := if Qle_bool x y then x else y.

(** [series.max()] and [series.min()] on a non-empty series. *)
Definition series_max (l : list Q) : Q :=
  match l with
  | [] => 0%Q
  | x :: l' => fold_left Qmaxb l' x
  end.

Definition series_min (l : list Q) : Q :=
  match l with
  | [] => 0%Q
  | x :: l' => fold_left Qminb l' x
  end.

(** [df['Close'].iloc[-1]] *)
Definition last_close (df : list bar) : Q := List.last (map Close df) 0%Q.

Definition rule_ma50 (df : list bar) : rule := fun st =>
  let current_price := last_close df in
  let ma_50 := rolling_mean_last 50 (map Close df) in
  if Qltb current_price (ma_50 * 0.95) then
    Some (adjust st (-15) ("Trading below 50-day MA ($" ++ format_fixed 2 ma_50 ++ ")"))
  else if Qltb (ma_50 * 1.05) current_price then
    Some (adjust st 15 ("Trading above 50-day MA ($" ++ format_fixed 2 ma_50 ++ ")"))
  else Some st.

Definition rule_ma200 (df : list bar) : rule := fun st =>
  let current_price := last_close df in
  let ma_200 := rolling_mean_last 200 (map Close df) in
  if (200 <=? length df)%nat then
    if Qltb current_price (ma_200 * 0.90) then
      Some (adjust st (-20)
              ("Significantly below 200-day MA ($" ++ format_fixed 2 ma_200 ++ ")"))
    else if Qltb (ma_200 * 1.10) current_price then
      Some (adjust st 20
              ("Significantly above 200-day MA ($" ++ format_fixed 2 ma_200 ++ ")"))
    else Some st
  else Some st.

(** The 14-period RSI test.  [rs = gain / loss] is a float division: with
    [loss = 0] it is [inf] when [gain > 0], which makes the RSI 100, and
    [nan] when [gain = 0], which fails both comparisons. *)
Definition rule_rsi (df : list bar) : rule := fun st =>
  let delta := diff (map Close df) in
  let gain := rolling_mean_last 14 (map (fun d => if Qltb 0 d then d else 0%Q) delta) in
  let loss := rolling_mean_last 14 (map (fun d => (- (if Qltb d 0 then d else 0))%Q) delta) in
  if Qeq_bool loss 0 then
    if Qeq_bool gain 0 then Some st
    else Some (adjust st 15 "Overbought RSI (100.0)")
  else
    let rs := (gain / loss)%Q in
    let current_rsi := (100 - 100 / (1 + rs))%Q in
    if Qltb current_rsi 30 then
      Some (adjust st (-15) ("Oversold RSI (" ++ format_fixed 1 current_rsi ++ ")"))
    else if Qltb 70 current_rsi then
      Some (adjust st 15 ("Overbought RSI (" ++ format_fixed 1 current_rsi ++ ")"))
    else Some st.

(** The 52-week range test.  The subtractions raise on a bound that is not
    a number.  The division is a float division: on an empty range it is
    [inf], [-inf] or [nan] by the sign of the numerator. *)
Definition rule_range (df : list bar) (info : pydict) : rule := fun st =>
  let current_price := last_close df in
  let week_52_high :=
    dict_get info "fiftyTwoWeekHigh" (PFloat (series_max (map High df))) in
  let week_52_low :=
    dict_get info "fiftyTwoWeekLow" (PFloat (series_min (map Low df))) in
  low ← as_num week_52_low;
  high ← as_num week_52_high;
  if Qeq_bool (high - low) 0 then
    if Qltb (current_price - low) 0 then
      Some (adjust st (-10) "Near 52-week low (-inf% of range)")
    else if Qltb 0 (current_price - low) then
      Some (adjust st 10 "Near 52-week high (inf% of range)")
    else Some st
  else
    let range_position := ((current_price - low) / (high - low))%Q in
    if Qltb range_position 0.25 then
      Some (adjust st (-10)
              ("Near 52-week low (" ++ format_fixed 1 (range_position * 100)
                 ++ "% of range)"))
    else if Qltb 0.75 range_position then
      Some (adjust st 10
              ("Near 52-week high (" ++ format_fixed 1 (range_position * 100)
                 ++ "% of range)"))
    else Some st.

(** [history] is what [ticker_data.history(period="1y")] does: the bars, or
    the exception it raises (caught by the scorer's own handler, with the
    score and the reasons still at their initial values). *)
Definition calculate_adaptive_score (history : result (list bar)) (info : pydict)
  : Z * list string :=
  match history with
  | inl _ => (clamp 0, [])
  | inr df =>
      if (length df <? 50)%nat then (0, ["Insufficient historical data"])
      else
        let st := try_rules [rule_ma50 df; rule_ma200 df; rule_rsi df;
                             rule_range df info] tally0 in
        (clamp (score st), reasons st)
  end.

(** ** Combination and recommendation *)

(** [(rational_score * rational_weight) + (adaptive_score * adaptive_weight)]
    with [adaptive_weight = 1 - rational_weight]. *)
Definition combine (rational_score adaptive_score rational_weight : Q) : Q :=
  let adaptive_weight := (1 - rational_weight)%Q in
  (rational_score * rational_weight + adaptive_score * adaptive_weight)%Q.

(** The [if]/[elif] chain on [combined_score]: the recommendation and its
    signal class. *)
Definition bucket (combined_score : Q) : string * string :=
  if Qltb combined_score (-20) then ("STRONG BUY", "strong-buy")
  else if Qltb combined_score (-5) then ("BUY", "buy")
  else if Qltb 20 combined_score then ("STRONG SELL", "strong-sell")
  else if Qltb 5 combined_score then ("SELL", "sell")
  else ("HOLD", "hold").

(** ** The cache

    [cache] maps a ticker to a reference to its response dictionary and the
    time it was stored; [heap] holds the dictionaries.  Times are in
    microseconds, the resolution of [datetime]. *)

Abbreviation loc := positive.

Record state := State {
  heap : gmap loc pydict;
  cache : gmap string (loc * Z)
}.

Definition state0 : state := State ∅ ∅.

(** [timedelta(minutes=10)] *)
Definition CACHE_DURATION : Z := 10 * 60 * 1000000.

(** [now] is the value of [datetime.now()] at the call. *)
Definition get_cached_data (s : state) (ticker : string) (now : Z) : option loc :=
  match cache s !! ticker with
  | Some (data, timestamp) =>
      if (now - timestamp <? CACHE_DURATION)%Z then Some data else None
  | None => None
  end.

Definition cache_data (ticker : string) (data : loc) (now : Z) (s : state) : state :=
  State (heap s) (<[ticker := (data, now)]> (cache s)).

(** The dictionary a reference points to. *)
Definition deref (s : state) (l : loc) : pydict := default ∅ (heap s !! l).

(** In-place update of the object at [l]. *)
Definition store (l : loc) (d : pydict) (s : state) : state :=
  State (<[l := d]> (heap s)) (cache s).

(** A new object holding [d]. *)
Definition alloc (d : pydict) (s : state) : loc * state :=
  let l := fresh (dom (heap s)) in
  (l, State (<[l := d]> (heap s)) (cache s)).

(** ** The analyze endpoint *)

Record reply := Reply { status : Z; payload : pydict }.

Definition error_payload (msg : string) : pydict := {[ "error" := PStr msg ]}.

(** What the market-data provider and the clock do during one request. *)
Record world := World {
  stock_info : string -> result pydict;             (* yf.Ticker(t).info *)
  stock_history : string -> result (list bar);      (* yf.Ticker(t).history(period="1y") *)
  clock_lookup : Z;                                 (* datetime.now() in get_cached_data *)
  clock_store : Z                                   (* datetime.now() in cache_data *)
}.

(** [v.upper()] *)
Definition py_upper (py : builtins) (v : pyval) : result string :=
  match v with
  | PStr s => ok (str_upper py s)
  | _ => raise ("'" ++ type_name v ++ "' object has no attribute 'upper'")
  end.

(** [d[key]] *)
Definition dict_item (d : pydict) (key : string) : result pyval :=
  match d !! key with
  | Some v => ok v
  | None => raise ("'" ++ key ++ "'")
  end.

(** [v * w] for a float [w]. *)
Definition py_mul_float (v : pyval) (w : Q) : result Q :=
  match v with
  | PInt z => ok (inject_Z z * w)%Q
  | PFloat q => ok (q * w)%Q
  | PNone => raise "unsupported operand type(s) for *: 'NoneType' and 'float'"
  | PStr _ | PList _ => raise "can't multiply sequence by non-int of type 'float'"
  end.

(** [bool(d)] for a dictionary. *)
Definition dict_truthy (d : pydict) : bool := negb (size d =? 0)%nat.

(** The [except Exception as e] clause of the handler. *)
Definition on_exception (py : builtins) (e : exn) : reply :=
  let error_message := str_exn e in
  if contains "rate" (str_lower py error_message) || contains "429" error_message then
    Reply 429 (error_payload
                 "Rate limit reached. Please wait 15-20 minutes before trying again.")
  else Reply 500 (error_payload ("Error: " ++ error_message)).

(** The five assignments of the cache-hit branch. *)
Definition recombined (d : pydict) (combined_score rational_weight : Q) : pydict :=
  let '(recommendation, signal_class) := bucket combined_score in
  <["adaptive_weight" := PFloat (1 - rational_weight)]>
    (<["rational_weight" := PFloat rational_weight]>
       (<["signal_class" := PStr signal_class]>
          (<["recommendation" := PStr recommendation]>
             (<["combined_score" := PFloat (round2 combined_score)]> d)))).

(** The response dictionary built on a cache miss. *)
Definition response_of (ticker : string) (info : pydict) (current_price : pyval)
    (rational adaptive : Z * list string) (rational_weight : Q) : pydict :=
  let combined_score :=
    combine (inject_Z (fst rational)) (inject_Z (fst adaptive)) rational_weight in
  let '(recommendation, signal_class) := bucket combined_score in
  list_to_map
    [ ("ticker", PStr ticker);
      ("company_name", dict_get info "longName" (PStr ticker));
      ("current_price", current_price);
      ("rational_score", PInt (fst rational));
      ("adaptive_score", PInt (fst adaptive));
      ("combined_score", PFloat (round2 combined_score));
      ("recommendation", PStr recommendation);
      ("signal_class", PStr signal_class);
      ("rational_reasons", PList (snd rational));
      ("adaptive_reasons", PList (snd adaptive));
      ("rational_weight", PFloat rational_weight);
      ("adaptive_weight", PFloat (1 - rational_weight));
      ("pe_ratio", dict_get info "trailingPE" (PStr "N/A"));
      ("forward_pe", dict_get info "forwardPE" (PStr "N/A"));
      ("peg_ratio", dict_get info "pegRatio" (PStr "N/A"));
      ("price_to_book", dict_get info "priceToBook" (PStr "N/A"));
      ("market_cap", dict_get info "marketCap" (PStr "N/A"));
      ("sector", dict_get info "sector" (PStr "N/A"));
      ("industry", dict_get info "industry" (PStr "N/A")) ].

(** [data.get('ticker', '').upper().strip()] *)
Definition request_ticker (py : builtins) (data : pydict) : result string :=
  (do upper_ticker <- py_upper py (dict_get data "ticker" (PStr ""));
   ok (str_strip py upper_ticker))%result.

(** The integers that convert to a float: those that round to a finite
    binary64 number. *)
Definition float_range (z : Z) : bool := (Z.abs z <? 2 ^ 1024 - 2 ^ 970)%Z.

Section Handler.

Variable py : builtins.

(** [float(v)] *)
Definition py_float (v : pyval) : result Q :=
  match v with
  | PInt z =>
      if float_range z then ok (inject_Z z)
      else raise "int too large to convert to float"
  | PFloat q => ok q
  | PStr s => float_of_str py s
  | PNone | PList _ =>
      raise ("float() argument must be a string or a real number, not '"
               ++ type_name v ++ "'")
  end.

(** [float(data.get('rational_weight', 50))], the weight in percent. *)
Definition request_weight (data : pydict) : result Q :=
  py_float (dict_get data "rational_weight" (PInt 50)).

(** The cache-hit branch: recombine the stored scores with the new weight
    and write the five fields into the stored object. *)
Definition analyze_hit (l : loc) (rational_weight : Q) (s : state)
  : result (reply * state) :=
  (let cached_result := deref s l in
   do rational_score <- dict_item cached_result "rational_score";
   do adaptive_score <- dict_item cached_result "adaptive_score";
   let adaptive_weight := (1 - rational_weight)%Q in
   do x <- py_mul_float rational_score rational_weight;
   do y <- py_mul_float adaptive_score adaptive_weight;
   let combined_score := (x + y)%Q in
   let d := recombined cached_result combined_score rational_weight in
   ok (Reply 200 d, store l d s))%result.

(** The cache-miss branch: fetch, score, combine, cache. *)
Definition analyze_miss (w : world) (ticker : string) (rational_weight : Q)
    (s : state) : result (reply * state) :=
  (do info <- stock_info w ticker;
   let current_price :=
     dict_get info "currentPrice" (dict_get info "regularMarketPrice" PNone) in
   if negb (truthy current_price) then
     ok (Reply 404 (error_payload
                      ("Could not fetch data for " ++ ticker
                         ++ ". Please check the ticker symbol or try again later.")),
         s)
   else
     let rational := calculate_rational_score info in
     let adaptive := calculate_adaptive_score (stock_history w ticker) info in
     let response :=
       response_of ticker info current_price rational adaptive rational_weight in
     let '(l, s1) := alloc response s in
     ok (Reply 200 response, cache_data ticker l (clock_store w) s1))%result.

(** The [try] block of the handler.  Whatever raises does so before the
    cache or a cached object is written, so an exception leaves the state
    as it was. *)
Definition analyze_try (w : world) (data : pydict) (s : state)
  : result (reply * state) :=
  (do ticker <- request_ticker py data;
   do weight <- request_weight data;
   let rational_weight := (weight / 100)%Q in
   if negb (truthy (PStr ticker)) then
     ok (Reply 400 (error_payload "Please enter a ticker symbol"), s)
   else
     match get_cached_data s ticker (clock_lookup w) with
     | Some l =>
         if dict_truthy (deref s l) then analyze_hit l rational_weight s
         else analyze_miss w ticker rational_weight s
     | None => analyze_miss w ticker rational_weight s
     end)%result.

(** [analyze()] on the JSON object [data] of the request body. *)
Definition analyze (w : world) (data : pydict) (s : state) : reply * state :=
  match analyze_try w data s with
  | inr r => r
  | inl e => (on_exception py e, s)
  end.

End Handler.

(** ** The combination on IEEE binary64 numbers *)

Module Binary64.

(** Lines 152 and 205-206 of the handler on floats: the weight divided
    by 100, its complement, the two products and their sum, each rounded
    to nearest. *)
Definition combine (rational_score adaptive_score weight : float) : float :=
  let rational_weight := (weight / 100)%float in
  let adaptive_weight := (1 - rational_weight)%float in
  (rational_score * rational_weight + adaptive_score * adaptive_weight)%float.

End Binary64.

(** ** States the service can be in *)

(** Every cached reference points to a dictionary that holds the two
    scores as integers within the clamping bounds. *)
Definition cache_wf (s : state) : Prop :=
  forall ticker l t, cache s !! ticker = Some (l, t) ->
    exists d r a,
      heap s !! l = Some d /\
      d !! "rational_score" = Some (PInt r) /\ (-50 <= r <= 50)%Z /\
      d !! "adaptive_score" = Some (PInt a) /\ (-50 <= a <= 50)%Z.

(** The states reached from the empty cache by serving requests. *)
Inductive reachable (py : builtins) : state -> Prop :=
| reachable_init : reachable py state0
| reachable_step s w data :
    reachable py s ->
    reachable py (snd (analyze py w data s)).

(** A successful reply reports a combined score within the clamping
    bounds. *)
Definition combined_score_in_range (r : reply) : Prop :=
  status r = 200%Z ->
  exists c, payload r !! "combined_score" = Some (PFloat c) /\ (-50 <= c <= 50)%Q.

(** The request finds a live cache entry for [ticker]. *)
Definition cache_hit (s : state) (ticker : string) (now : Z) (l : loc) : Prop :=
  get_cached_data s ticker now = Some l /\ dict_truthy (deref s l) = true.

(** The request finds no live cache entry for [ticker]. *)
Definition cache_miss (s : state) (ticker : string) (now : Z) : Prop :=
  forall l, ~ cache_hit s ticker now l.

(** The keys the cache-hit branch assigns. *)
Definition recombined_keys : list string :=
  ["combined_score"; "recommendation"; "signal_class"; "rational_weight";
   "adaptive_weight"].

(** The other keys of a response. *)
Definition preserved_keys : list string :=
  ["ticker"; "company_name"; "current_price"; "rational_score";
   "adaptive_score"; "rational_reasons"; "adaptive_reasons"; "pe_ratio";
   "forward_pe"; "peg_ratio"; "price_to_book"; "market_cap"; "sector";
   "industry"].

(** The keys of a response dictionary. *)
Definition response_keys : gset string :=
  list_to_set (preserved_keys ++ recombined_keys).

(** Every cached reference points to a dictionary with the keys of a
    response. *)
Definition cache_keys_wf (s : state) : Prop :=
  forall ticker l t, cache s !! ticker = Some (l, t) ->
    exists d, heap s !! l = Some d /\ dom d = response_keys.

(** The keys of [info] that the rational scorer reads and uses, and those
    the adaptive scorer does. *)
Definition rational_keys : list string :=
  ["trailingPE"; "industryPE"; "pegRatio"; "priceToBook"; "profitMargins"].

Definition adaptive_keys : list string := ["fiftyTwoWeekHigh"; "fiftyTwoWeekLow"].

(** Two dictionaries agree on the keys of a list. *)
Definition agree_on (keys : list string) (d d' : pydict) : Prop :=
  Forall (fun k => d !! k = d' !! k) keys.



(** What a rule that adds at most [hi] and subtracts at most [lo] does to
    the tally: it appends at most one reason, and none exactly when it
    leaves the score alone. *)
Definition rule_effect (lo hi : Z) (st st' : tally) : Prop :=
  lo <= score st' - score st <= hi /\
  (length (reasons st) <= length (reasons st') <= length (reasons st) + 1)%nat /\
  (length (reasons st') = length (reasons st) -> st' = st).

(** ** Example inputs *)

(** Sixty daily bars of a price that rises by one a day from 100. *)
Definition rising_history : list bar :=
  map (fun i => let p := inject_Z (Z.of_nat (100 + i)) in Bar p (p + 1) (p - 1))
      (seq 0 60).


(** Built-ins for the examples below, which send ASCII text and no text
    as weight, so that none of the four is consulted. *)
Definition no_str_floats : string -> result Q :=
  fun s => raise ("could not convert string to float: '" ++ s ++ "'").

Definition ascii_only : builtins :=
  Builtins no_str_floats (fun s => s) (fun s => s) (fun s => s).

(** The snapshot pe = 10, industry_pe = 25, peg = 0.5, p/b = 0.5,
    margin = 0.25, priced at 12.5. *)
Definition cheap_snapshot : pydict :=
  list_to_map
    [ ("currentPrice", PFloat 12.5); ("trailingPE", PInt 10);
      ("industryPE", PInt 25); ("pegRatio", PFloat 0.5);
      ("priceToBook", PFloat 0.5); ("profitMargins", PFloat 0.25) ].


(** A provider that serves [cheap_snapshot] and an empty price history. *)
Definition cheap_world : world :=
  World (fun _ => inr cheap_snapshot) (fun _ => inr []) 0 5.

(** A provider whose fundamentals carry no price. *)
Definition priceless_world : world :=
  World (fun _ => inr ∅) (fun _ => inr []) 0 5.

(** A provider that is being throttled. *)
Definition throttled_world : world :=
  World (fun _ => raise "Too Many Requests. Rate limited. Try after a while.")
        (fun _ => inr []) 0 5.

Definition request_of (ticker weight : pyval) : pydict :=
  list_to_map [ ("ticker", ticker); ("rational_weight", weight) ].

(** The state after a first request for AAPL at weight 50. *)
Definition warm_state : state :=
  snd (analyze ascii_only cheap_world (request_of (PStr "aapl") (PInt 50)) state0).

(** * Properties *)

(** ** Comparisons and clamping *)

Lemma Qltb_lt (q r : Q) : Qltb q r = true <-> (q < r)%Q.
Proof.
  unfold Qltb. rewrite negb_true_iff, <- not_true_iff_false, Qle_bool_iff.
  split; [apply Qnot_le_lt | apply Qlt_not_le].
Qed.

Lemma Qltb_ge (q r : Q) : Qltb q r = false <-> (r <= q)%Q.
Proof.
  unfold Qltb. rewrite negb_false_iff. apply Qle_bool_iff.
Qed.

Lemma Qltb_Qeq (q q' r r' : Q) : (q == q')%Q -> (r == r')%Q -> Qltb q r = Qltb q' r'.
Proof.
  intros Hq Hr. unfold Qltb. now rewrite Hq, Hr.
Qed.

Lemma clamp_bounds (z : Z) : -50 <= clamp z <= 50.
Proof. unfold clamp. lia. Qed.

Lemma clamp_id (z : Z) : -50 <= z <= 50 -> clamp z = z.
Proof. unfold clamp. lia. Qed.

Lemma calculate_rational_score_bounds (info : pydict) :
  -50 <= fst (calculate_rational_score info) <= 50.
Proof. apply clamp_bounds. Qed.

Lemma calculate_adaptive_score_bounds (history : result (list bar)) (info : pydict) :
  -50 <= fst (calculate_adaptive_score history info) <= 50.
Proof.
  unfold calculate_adaptive_score.
  destruct history as [e | df]; [apply clamp_bounds |].
  destruct (length df <? 50)%nat; [simpl; lia | apply clamp_bounds].
Qed.

(** ** Bounds of the combination, in exact arithmetic *)

Lemma combine_unit_weight_bounds (r a w : Q) :
  (0 <= w <= 1)%Q -> (-50 <= r <= 50)%Q -> (-50 <= a <= 50)%Q ->
  (-50 <= combine r a w <= 50)%Q.
Proof.
  intros [Hw0 Hw1] [Hr0 Hr1] [Ha0 Ha1]. unfold combine.
  assert (H1 : (0 <= 1 - w)%Q) by lra.
  pose proof (Qmult_le_compat_r _ _ _ Hr1 Hw0) as P1.
  pose proof (Qmult_le_compat_r _ _ _ Hr0 Hw0) as P2.
  pose proof (Qmult_le_compat_r _ _ _ Ha1 H1) as P3.
  pose proof (Qmult_le_compat_r _ _ _ Ha0 H1) as P4.
  split; lra.
Qed.

Lemma weight_percent_unit (weight : Q) :
  (0 <= weight <= 100)%Q -> (0 <= weight / 100 <= 1)%Q.
Proof.
  intros [H0 H1]. split.
  - apply Qle_shift_div_l; lra.
  - apply Qle_shift_div_r; lra.
Qed.

(** ** Rounding *)

Lemma round_half_even_le (q : Q) (n : Z) :
  (q <= inject_Z n)%Q -> round_half_even q <= n.
Proof.
  destruct q as [num den]. unfold Qle, round_half_even. simpl.
  intros H. rewrite Z.mul_1_r in H.
  pose proof (Z.div_mod num (Zpos den) ltac:(lia)) as Hdm.
  pose proof (Z.mod_pos_bound num (Zpos den) ltac:(lia)) as Hb.
  destruct (Z.compare_spec (2 * (num mod Zpos den)) (Zpos den));
    [destruct (Z.even _) | | ]; nia.
Qed.

Lemma round_half_even_ge (q : Q) (n : Z) :
  (inject_Z n <= q)%Q -> n <= round_half_even q.
Proof.
  destruct q as [num den]. unfold Qle, round_half_even. simpl.
  intros H. rewrite Z.mul_1_r in H.
  pose proof (Z.div_mod num (Zpos den) ltac:(lia)) as Hdm.
  pose proof (Z.mod_pos_bound num (Zpos den) ltac:(lia)) as Hb.
  destruct (Z.compare_spec (2 * (num mod Zpos den)) (Zpos den));
    [destruct (Z.even _) | | ]; nia.
Qed.

Lemma round2_bounds (q : Q) :
  (-50 <= q <= 50)%Q -> (-50 <= round2 q <= 50)%Q.
Proof.
  intros [H0 H1]. unfold round2. rewrite Qred_correct.
  assert (Hhi : round_half_even (q * 100) <= 5000).
  { apply round_half_even_le. change (inject_Z 5000) with 5000%Q. lra. }
  assert (Hlo : -5000 <= round_half_even (q * 100)).
  { apply round_half_even_ge. change (inject_Z (-5000)) with (-5000)%Q. lra. }
  set (z := round_half_even (q * 100)) in *.
  split.
  - apply Qle_shift_div_l; [lra |].
    change (-50 * 100)%Q with (inject_Z (-5000)). rewrite <- Zle_Qle. lia.
  - apply Qle_shift_div_r; [lra |].
    change (50 * 100)%Q with (inject_Z 5000). rewrite <- Zle_Qle. lia.
Qed.

(** ** Recommendation bucketing *)

Lemma bucket_Qeq (c c' : Q) : (c == c')%Q -> bucket c = bucket c'.
Proof.
  intros H. unfold bucket.
  rewrite (Qltb_Qeq c c' (-20) (-20)), (Qltb_Qeq c c' (-5) (-5)),
    (Qltb_Qeq 20 20 c c'), (Qltb_Qeq 5 5 c c'); auto; reflexivity.
Qed.

Lemma bucket_spec (c : Q) :
  ((c < -20)%Q /\ bucket c = ("STRONG BUY", "strong-buy")) \/
  ((-20 <= c < -5)%Q /\ bucket c = ("BUY", "buy")) \/
  ((-5 <= c <= 5)%Q /\ bucket c = ("HOLD", "hold")) \/
  ((5 < c <= 20)%Q /\ bucket c = ("SELL", "sell")) \/
  ((20 < c)%Q /\ bucket c = ("STRONG SELL", "strong-sell")).
Proof.
  unfold bucket.
  destruct (Qltb c (-20)) eqn:H1; [apply Qltb_lt in H1 | apply Qltb_ge in H1].
  { left. split; [lra | reflexivity]. }
  destruct (Qltb c (-5)) eqn:H2; [apply Qltb_lt in H2 | apply Qltb_ge in H2].
  { right; left. split; [lra | reflexivity]. }
  destruct (Qltb 20 c) eqn:H3; [apply Qltb_lt in H3 | apply Qltb_ge in H3].
  { do 4 right. split; [lra | reflexivity]. }
  destruct (Qltb 5 c) eqn:H4; [apply Qltb_lt in H4 | apply Qltb_ge in H4].
  { do 3 right; left. split; [lra | reflexivity]. }
  do 2 right; left. split; [lra | reflexivity].
Qed.

(** C3: the bucketing of the combined score maps -30, -10, 0, 10, 30 to
    STRONG BUY, BUY, HOLD, SELL, STRONG SELL, and the boundary values
    -20, -5, 5, 20 to BUY, HOLD, HOLD, SELL: every comparison is strict. *)
Theorem bucket_table :
  map bucket [-30; -10; 0; 10; 30]%Q =
    [ ("STRONG BUY", "strong-buy"); ("BUY", "buy"); ("HOLD", "hold");
      ("SELL", "sell"); ("STRONG SELL", "strong-sell") ] /\
  map bucket [-20; -5; 5; 20]%Q =
    [ ("BUY", "buy"); ("HOLD", "hold"); ("HOLD", "hold"); ("SELL", "sell") ].
Proof. split; reflexivity. Qed.

(** ** The rational scorer *)

(** C4: on pe = 10, industry_pe = 25, peg = 0.5, p/b = 0.5, margin = 0.25
    the four adjustments -20, -15, -15, -10 add up to -60, the returned
    score is that sum clamped to -50, and the four reasons come in rule
    order. *)
Theorem rational_score_cheap_snapshot :
  score (rational_tally cheap_snapshot) = -60 /\
  calculate_rational_score cheap_snapshot =
    (-50, [ "Low P/E ratio (10.00 vs industry 25.00)";
            "Attractive PEG ratio (0.50)";
            "Trading below book value (0.50)";
            "Strong profit margins (25.0%)" ]).
Proof. split; vm_compute; reflexivity. Qed.

(** ** The adaptive scorer *)

(** C6: a fetched history of fewer than 50 bars makes the adaptive scorer
    return score 0 with the single reason "Insufficient historical data",
    whatever the bars and the fundamentals are. *)
Theorem adaptive_score_insufficient_history (df : list bar) (info : pydict) :
  (length df < 50)%nat ->
  calculate_adaptive_score (inr df) info = (0, ["Insufficient historical data"]).
Proof.
  intros Hlen. unfold calculate_adaptive_score.
  destruct (Nat.ltb_spec (length df) 50) as [_ | Hge]; [reflexivity | lia].
Qed.

Lemma adaptive_score_insufficient_history_witness :
  calculate_adaptive_score (inr [Bar 10 11 9; Bar 12 12 10]) cheap_snapshot =
    (0, ["Insufficient historical data"]).
Proof.
  apply (adaptive_score_insufficient_history [Bar 10 11 9; Bar 12 12 10] cheap_snapshot).
  simpl. lia.
Defined.

(** ** The cache *)

Lemma get_cached_data_cache_data (s : state) (ticker : string) (l : loc) (now t : Z) :
  get_cached_data (cache_data ticker l now s) ticker t =
    if (t - now <? CACHE_DURATION)%Z then Some l else None.
Proof.
  unfold get_cached_data, cache_data. simpl. now rewrite lookup_insert_eq.
Qed.

(** C7: a result stored at [now] is returned, the very same object, by a
    lookup at any time [t] with [t - now] below the 10 minutes; a lookup at
    or after that, or of a ticker that was never stored, finds nothing,
    and the expired entry is still in the cache; storing replaces whatever
    entry the ticker had and stamps it with the time of the store. *)
Theorem cache_round_trip (s : state) (ticker : string) (l : loc) (now t : Z) :
  CACHE_DURATION = 600000000 /\
  (t - now < CACHE_DURATION ->
     get_cached_data (cache_data ticker l now s) ticker t = Some l) /\
  (CACHE_DURATION <= t - now ->
     get_cached_data (cache_data ticker l now s) ticker t = None /\
     cache (cache_data ticker l now s) !! ticker = Some (l, now)) /\
  (cache s !! ticker = None -> get_cached_data s ticker t = None) /\
  cache (cache_data ticker l now s) !! ticker = Some (l, now) /\
  heap (cache_data ticker l now s) = heap s.
Proof.
  assert (Hstored : cache (cache_data ticker l now s) !! ticker = Some (l, now)).
  { unfold cache_data. simpl. apply lookup_insert_eq. }
  split; [reflexivity |].
  split; [| split; [| split; [| split; [assumption | reflexivity]]]].
  - intros H. rewrite get_cached_data_cache_data.
    destruct (Z.ltb_spec (t - now) CACHE_DURATION); [reflexivity | lia].
  - intros H. split; [| assumption]. rewrite get_cached_data_cache_data.
    destruct (Z.ltb_spec (t - now) CACHE_DURATION); [lia | reflexivity].
  - intros H. unfold get_cached_data. now rewrite H.
Qed.

Lemma cache_round_trip_witness :
  get_cached_data (cache_data "AAPL" 1%positive 0 state0) "AAPL" 599999999 = Some 1%positive /\
  get_cached_data (cache_data "AAPL" 1%positive 0 state0) "AAPL" 600000000 = None /\
  get_cached_data state0 "AAPL" 600000000 = None.
Proof.
  split; [| split].
  - destruct (cache_round_trip state0 "AAPL" 1%positive 0 599999999)
      as (_ & Hfresh & _).
    apply Hfresh. vm_compute. reflexivity.
  - destruct (cache_round_trip state0 "AAPL" 1%positive 0 600000000)
      as (_ & _ & Hstale & _).
    apply Hstale. vm_compute. discriminate.
  - destruct (cache_round_trip state0 "AAPL" 1%positive 0 600000000)
      as (_ & _ & _ & Hnever & _).
    apply Hnever. reflexivity.
Defined.

(** ** The combination *)

(** C2, as amended: in exact arithmetic, a weight in [0, 100] and two
    scores in [-50, 50] combine to a score in [-50, 50]. *)
Theorem combine_bounds (r a weight : Q) :
  (0 <= weight <= 100)%Q -> (-50 <= r <= 50)%Q -> (-50 <= a <= 50)%Q ->
  (-50 <= combine r a (weight / 100) <= 50)%Q.
Proof.
  intros Hw Hr Ha.
  apply combine_unit_weight_bounds; [apply weight_percent_unit |..]; assumption.
Qed.

Lemma combine_bounds_witness : (-50 <= combine 50 (-50) (30 / 100) <= 50)%Q.
Proof.
  apply (combine_bounds 50 (-50) 30); split; vm_compute; discriminate.
Defined.

(** C2 as stated fails on the floats the code computes with: at weight
    32.14730118694716 and both scores 50 the binary64 value of the
    combination is 50.00000000000001. *)
Lemma binary64_combine_exceeds_50 :
  let weight := 0x1.012dac3ea4ccep+5%float in
  PrimFloat.leb 0 weight = true /\ PrimFloat.leb weight 100 = true /\
  Binary64.combine 50 50 weight = 0x1.9000000000001p+5%float /\
  PrimFloat.ltb 50 (Binary64.combine 50 50 weight) = true.
Proof. repeat split; vm_compute; reflexivity. Qed.

(** ** The response dictionaries *)

Lemma recombined_lookup_other (d : pydict) (c w : Q) (k : string) :
  k ∉ recombined_keys -> recombined d c w !! k = d !! k.
Proof.
  unfold recombined_keys, recombined. intros Hk.
  repeat (apply not_elem_of_cons in Hk as [? Hk]).
  destruct (bucket c) as [rec sig].
  now rewrite !lookup_insert_ne by congruence.
Qed.

Lemma recombined_lookup_new (d : pydict) (c w : Q) :
  recombined d c w !! "combined_score" = Some (PFloat (round2 c)) /\
  recombined d c w !! "recommendation" = Some (PStr (fst (bucket c))) /\
  recombined d c w !! "signal_class" = Some (PStr (snd (bucket c))) /\
  recombined d c w !! "rational_weight" = Some (PFloat w) /\
  recombined d c w !! "adaptive_weight" = Some (PFloat (1 - w)).
Proof.
  unfold recombined. destruct (bucket c) as [rec sig]. simpl.
  repeat split; now simplify_map_eq.
Qed.

Lemma recombined_idempotent (d : pydict) (c w : Q) :
  recombined (recombined d c w) c w = recombined d c w.
Proof.
  unfold recombined. destruct (bucket c) as [rec sig].
  apply map_eq. intros k.
  rewrite !lookup_insert. repeat case_decide; reflexivity.
Qed.

Lemma recombined_truthy (d : pydict) (c w : Q) :
  dict_truthy (recombined d c w) = true.
Proof.
  unfold dict_truthy. apply negb_true_iff, Nat.eqb_neq. intros Hsize.
  apply map_size_empty_iff in Hsize.
  pose proof (recombined_lookup_new d c w) as (Hc & _).
  rewrite Hsize, lookup_empty in Hc. discriminate.
Qed.

Lemma response_of_scores ticker info price (rational adaptive : Z * list string) (w : Q) :
  let d := response_of ticker info price rational adaptive w in
  d !! "rational_score" = Some (PInt (fst rational)) /\
  d !! "adaptive_score" = Some (PInt (fst adaptive)) /\
  d !! "combined_score" =
    Some (PFloat (round2 (combine (inject_Z (fst rational)) (inject_Z (fst adaptive)) w))).
Proof.
  unfold response_of. destruct (bucket _) as [rec sig]. simpl.
  repeat split; now simplify_map_eq.
Qed.

(** ** The handler, branch by branch *)

Lemma inject_Z_bounds (z : Z) : -50 <= z <= 50 -> (-50 <= inject_Z z <= 50)%Q.
Proof.
  intros [H0 H1]. split.
  - change (-50)%Q with (inject_Z (-50)). now rewrite <- Zle_Qle.
  - change 50%Q with (inject_Z 50). now rewrite <- Zle_Qle.
Qed.

Lemma string_truthy (t : string) : truthy (PStr t) = true <-> t <> "".
Proof.
  simpl. rewrite negb_true_iff. apply String.eqb_neq.
Qed.

Section HandlerFacts.

Variable py : builtins.

(** The handler once the ticker and the weight of the request are read. *)
Lemma analyze_try_parsed (w : world) (data : pydict) (s : state)
    (ticker : string) (weight : Q) :
  request_ticker py data = inr ticker ->
  request_weight py data = inr weight ->
  analyze_try py w data s =
    if negb (truthy (PStr ticker)) then
      ok (Reply 400 (error_payload "Please enter a ticker symbol"), s)
    else
      match get_cached_data s ticker (clock_lookup w) with
      | Some l =>
          if dict_truthy (deref s l) then analyze_hit l (weight / 100) s
          else analyze_miss w ticker (weight / 100) s
      | None => analyze_miss w ticker (weight / 100) s
      end.
Proof.
  intros Ht Hw. unfold analyze_try. rewrite Ht, Hw. reflexivity.
Qed.

(** On a well-formed entry the cache-hit branch does not raise. *)
Lemma analyze_hit_wf (s : state) (l : loc) (d : pydict) (r a : Z) (rw : Q) :
  heap s !! l = Some d ->
  d !! "rational_score" = Some (PInt r) ->
  d !! "adaptive_score" = Some (PInt a) ->
  let d' := recombined d (combine (inject_Z r) (inject_Z a) rw) rw in
  analyze_hit l rw s = inr (Reply 200 d', store l d' s).
Proof.
  intros Hl Hr Ha. unfold analyze_hit, deref, dict_item. rewrite Hl. simpl.
  rewrite Hr, Ha. reflexivity.
Qed.

(** What the cache-hit branch does when it does not raise. *)
Lemma analyze_hit_inv (s s' : state) (l : loc) (rw : Q) (r : reply) :
  analyze_hit l rw s = inr (r, s') ->
  exists c, r = Reply 200 (recombined (deref s l) c rw) /\
            s' = store l (recombined (deref s l) c rw) s.
Proof.
  unfold analyze_hit.
  destruct (dict_item (deref s l) "rational_score") as [e | x]; [discriminate |].
  destruct (dict_item (deref s l) "adaptive_score") as [e | y]; [discriminate |].
  simpl.
  destruct (py_mul_float x rw) as [e | x']; [discriminate |].
  destruct (py_mul_float y (1 - rw)) as [e | y']; [discriminate |].
  simpl. intros H. injection H as <- <-. eauto.
Qed.

(** What the cache-miss branch does when it does not raise. *)
Lemma analyze_miss_inv (w : world) (ticker : string) (rw : Q) (s s' : state) (r : reply) :
  analyze_miss w ticker rw s = inr (r, s') ->
  (status r = 404 /\ s' = s) \/
  exists info price,
    stock_info w ticker = inr info /\
    let response :=
      response_of ticker info price (calculate_rational_score info)
        (calculate_adaptive_score (stock_history w ticker) info) rw in
    let l := fresh (dom (heap s)) in
    r = Reply 200 response /\
    s' = cache_data ticker l (clock_store w) (State (<[l := response]> (heap s)) (cache s)).
Proof.
  unfold analyze_miss.
  destruct (stock_info w ticker) as [e | info]; [discriminate |]. simpl.
  destruct (negb (truthy _)).
  - intros H. injection H as <- <-. left. split; reflexivity.
  - unfold alloc. intros H. injection H as <- <-. right. eauto.
Qed.

Lemma on_exception_status (e : exn) :
  status (on_exception py e) = 429 \/ status (on_exception py e) = 500.
Proof.
  unfold on_exception. destruct (_ || _); [left | right]; reflexivity.
Qed.

(** *** The invariant of the cache *)

Lemma state0_wf : cache_wf state0.
Proof.
  intros ticker l t H. unfold state0 in H. simpl in H.
  rewrite lookup_empty in H. discriminate.
Qed.

Lemma store_recombined_wf (s : state) (l : loc) (c rw : Q) :
  cache_wf s -> cache_wf (store l (recombined (deref s l) c rw) s).
Proof.
  intros Hwf ticker l' t Hc. simpl in Hc.
  destruct (Hwf ticker l' t Hc) as (d & r & a & Hd & Hr & Hrb & Ha & Hab).
  destruct (decide (l = l')) as [-> | Hne].
  - exists (recombined d c rw), r, a. unfold store, deref. simpl.
    rewrite Hd. simpl. rewrite lookup_insert_eq.
    rewrite !recombined_lookup_other
      by (unfold recombined_keys; rewrite !not_elem_of_cons; repeat split;
          try discriminate; apply not_elem_of_nil).
    auto.
  - exists d, r, a. unfold store. simpl. rewrite lookup_insert_ne by assumption. auto.
Qed.

Lemma cache_fresh_response_wf (w : world) (ticker : string) (info : pydict)
    (price : pyval) (rw : Q) (now : Z) (s : state) :
  cache_wf s ->
  let response :=
    response_of ticker info price (calculate_rational_score info)
      (calculate_adaptive_score (stock_history w ticker) info) rw in
  let l := fresh (dom (heap s)) in
  cache_wf (cache_data ticker l now (State (<[l := response]> (heap s)) (cache s))).
Proof.
  intros Hwf response l ticker' l' t Hc. unfold cache_data in *. simpl in *.
  destruct (decide (ticker = ticker')) as [-> | Hne].
  - rewrite lookup_insert_eq in Hc. injection Hc as <- <-.
    rewrite lookup_insert_eq.
    destruct (response_of_scores ticker' info price (calculate_rational_score info)
                (calculate_adaptive_score (stock_history w ticker') info) rw)
      as (Hr & Ha & _).
    eexists _, _, _. split; [reflexivity |].
    split; [exact Hr |]. split; [apply calculate_rational_score_bounds |].
    split; [exact Ha | apply calculate_adaptive_score_bounds].
  - rewrite lookup_insert_ne in Hc by assumption.
    destruct (Hwf ticker' l' t Hc) as (d & r & a & Hd & Hrest).
    exists d, r, a. split; [| exact Hrest].
    rewrite lookup_insert_ne; [assumption |].
    intros Heq. apply (is_fresh (dom (heap s))).
    apply elem_of_dom. exists d. fold l. now rewrite Heq.
Qed.

Lemma analyze_preserves_wf (w : world) (data : pydict) (s : state) :
  cache_wf s -> cache_wf (snd (analyze py w data s)).
Proof.
  intros Hwf. unfold analyze.
  destruct (analyze_try py w data s) as [e | [r s']] eqn:Htry;
    [assumption |]. simpl.
  unfold analyze_try in Htry.
  destruct (request_ticker py data) as [e | ticker]; [discriminate |].
  destruct (request_weight py data) as [e | weight]; [discriminate |].
  simpl in Htry.
  destruct (negb (String.eqb ticker "")).
  2: { injection Htry as <- <-. assumption. }
  simpl in Htry.
  assert (Hmiss : analyze_miss w ticker (weight / 100) s = inr (r, s') -> cache_wf s').
  { intros Hm. apply analyze_miss_inv in Hm as [[_ ->] | (info & price & _ & _ & ->)];
      [assumption | now apply cache_fresh_response_wf]. }
  destruct (get_cached_data s ticker (clock_lookup w)) as [l |]; [| auto].
  destruct (dict_truthy (deref s l)); [| auto].
  apply analyze_hit_inv in Htry as (c & _ & ->).
  now apply store_recombined_wf.
Qed.

Lemma reachable_wf (s : state) : reachable py s -> cache_wf s.
Proof.
  induction 1; [apply state0_wf | now apply analyze_preserves_wf].
Qed.

End HandlerFacts.

(** ** The combined score of a reply *)

(** C1, as amended: from a state reached by serving requests, a request
    whose weight converts to a number in [0, 100] gets, when it succeeds,
    a combined score in [-50, 50].  The handler itself accepts any number
    as weight. *)
Theorem analyze_combined_score_bounded (py : builtins)
    (w : world) (data : pydict) (s : state) (weight : Q) :
  reachable py s ->
  request_weight py data = inr weight ->
  (0 <= weight <= 100)%Q ->
  combined_score_in_range (fst (analyze py w data s)).
Proof.
  intros Hreach Hw Hrange Hstatus. apply reachable_wf in Hreach.
  assert (Hunit := weight_percent_unit weight Hrange).
  unfold analyze in *.
  destruct (analyze_try py w data s) as [e | [r s']] eqn:Htry.
  { simpl in Hstatus. destruct (on_exception_status py e) as [H | H];
      rewrite H in Hstatus; discriminate. }
  simpl in *. unfold analyze_try in Htry. rewrite Hw in Htry.
  destruct (request_ticker py data) as [e | ticker]; [discriminate |].
  simpl in Htry.
  destruct (negb (String.eqb ticker "")).
  2: { injection Htry as <- <-. discriminate. }
  assert (Hmiss : analyze_miss w ticker (weight / 100) s = inr (r, s') ->
                  exists c, payload r !! "combined_score" = Some (PFloat c) /\
                            (-50 <= c <= 50)%Q).
  { intros Hm.
    apply analyze_miss_inv in Hm as [[H404 _] | (info & price & _ & -> & _)].
    { rewrite H404 in Hstatus. discriminate. }
    destruct (response_of_scores ticker info price (calculate_rational_score info)
                (calculate_adaptive_score (stock_history w ticker) info) (weight / 100))
      as (_ & _ & Hc).
    eexists. split; [exact Hc |].
    apply round2_bounds, combine_unit_weight_bounds; [assumption |..];
      apply inject_Z_bounds;
      [apply calculate_rational_score_bounds | apply calculate_adaptive_score_bounds]. }
  unfold get_cached_data in Htry.
  destruct (cache s !! ticker) as [[l t] |] eqn:Hc; [| auto].
  destruct (clock_lookup w - t <? CACHE_DURATION)%Z; [| auto].
  destruct (dict_truthy (deref s l)); [| auto].
  destruct (Hreach ticker l t Hc) as (d & sr & sa & Hd & Hr & Hrb & Ha & Hab).
  rewrite (analyze_hit_wf s l d sr sa (weight / 100) Hd Hr Ha) in Htry.
  injection Htry as <- <-. simpl.
  eexists. split; [apply recombined_lookup_new |].
  apply round2_bounds, combine_unit_weight_bounds; [assumption |..];
    now apply inject_Z_bounds.
Qed.

Lemma analyze_combined_score_bounded_witness :
  combined_score_in_range
    (fst (analyze ascii_only cheap_world (request_of (PStr "aapl") (PInt 30)) state0)).
Proof.
  apply (analyze_combined_score_bounded ascii_only cheap_world
           (request_of (PStr "aapl") (PInt 30)) state0 30).
  - apply reachable_init.
  - vm_compute. reflexivity.
  - split; vm_compute; discriminate.
Defined.

(** C1 as stated fails: the handler accepts the weight 200, and with the
    rational score at -50 and the adaptive score at 0 it answers with the
    combined score -100. *)
Lemma analyze_weight_200_out_of_range :
  let r := fst (analyze ascii_only cheap_world
                  (request_of (PStr "aapl") (PInt 200)) state0) in
  status r = 200 /\
  payload r !! "rational_score" = Some (PInt (-50)) /\
  payload r !! "adaptive_score" = Some (PInt 0) /\
  payload r !! "combined_score" = Some (PFloat (-100)) /\
  ~ combined_score_in_range r.
Proof.
  assert (H : payload (fst (analyze ascii_only cheap_world
                              (request_of (PStr "aapl") (PInt 200)) state0))
              !! "combined_score" = Some (PFloat (-100)))
    by (vm_compute; reflexivity).
  repeat split; try (vm_compute; reflexivity); try exact H.
  intros Hin. destruct Hin as (c & Hc & Hlo & _); [vm_compute; reflexivity |].
  rewrite H in Hc. injection Hc as <-. revert Hlo. vm_compute. intros Hlo.
  apply Hlo. reflexivity.
Qed.

(** ** The rules of the rational scorer *)













(** ** Cache hits *)

Lemma get_cached_data_Some (s : state) (ticker : string) (now : Z) (l : loc) :
  get_cached_data s ticker now = Some l ->
  exists t, cache s !! ticker = Some (l, t).
Proof.
  unfold get_cached_data. destruct (cache s !! ticker) as [[l' t] |]; [| discriminate].
  destruct (_ <? _)%Z; [| discriminate]. intros H. injection H as <-. eauto.
Qed.

(** What the handler does on a cache hit in a well-formed state. *)
Lemma analyze_on_hit (py : builtins) (w : world) (data : pydict)
    (s : state) (ticker : string) (weight : Q) (l : loc) :
  cache_wf s ->
  request_ticker py data = inr ticker -> ticker <> "" ->
  request_weight py data = inr weight ->
  cache_hit s ticker (clock_lookup w) l ->
  exists d r a,
    heap s !! l = Some d /\
    d !! "rational_score" = Some (PInt r) /\
    d !! "adaptive_score" = Some (PInt a) /\
    let d' :=
      recombined d (combine (inject_Z r) (inject_Z a) (weight / 100)) (weight / 100) in
    analyze py w data s = (Reply 200 d', store l d' s).
Proof.
  intros Hwf Ht Hne Hw [Hget Htruthy].
  destruct (get_cached_data_Some _ _ _ _ Hget) as [t Hc].
  destruct (Hwf ticker l t Hc) as (d & r & a & Hd & Hr & _ & Ha & _).
  exists d, r, a. repeat (split; [assumption |]).
  unfold analyze. rewrite (analyze_try_parsed py w data s ticker weight Ht Hw).
  apply string_truthy in Hne. rewrite Hne. simpl. rewrite Hget, Htruthy.
  now rewrite (analyze_hit_wf s l d r a (weight / 100) Hd Hr Ha).
Qed.


Lemma warm_state_reachable : reachable ascii_only warm_state.
Proof. apply reachable_step, reachable_init. Qed.

Lemma warm_state_hit : cache_hit warm_state "AAPL" 0 1%positive.
Proof. split; vm_compute; reflexivity. Qed.


(** C8: two requests with the same body that both hit the cache get the
    same reply, with the same combined score, recommendation and signal
    class, and the second leaves the state as the first left it. *)
Theorem recombination_idempotent (py : builtins) (w1 w2 : world)
    (data : pydict) (s : state) (ticker : string) (weight : Q) (l : loc) :
  reachable py s ->
  request_ticker py data = inr ticker -> ticker <> "" ->
  request_weight py data = inr weight ->
  cache_hit s ticker (clock_lookup w1) l ->
  cache_hit s ticker (clock_lookup w2) l ->
  let first := analyze py w1 data s in
  let second := analyze py w2 data (snd first) in
  status (fst first) = 200 /\
  fst second = fst first /\
  snd second = snd first /\
  Forall (fun k => payload (fst second) !! k = payload (fst first) !! k /\
                   is_Some (payload (fst first) !! k))
    ["combined_score"; "recommendation"; "signal_class"].
Proof.
  intros Hreach Ht Hne Hw Hhit1 Hhit2. apply reachable_wf in Hreach.
  destruct (analyze_on_hit py w1 data s ticker weight l Hreach Ht Hne Hw Hhit1)
    as (d & r & a & Hd & Hr & Ha & Han).
  set (rw := (weight / 100)%Q) in *.
  set (c := combine (inject_Z r) (inject_Z a) rw) in *.
  simpl in Han. intros first second. subst first second. rewrite Han. simpl.
  assert (Hwf' : cache_wf (store l (recombined d c rw) s)).
  { replace d with (deref s l) by (unfold deref; now rewrite Hd).
    now apply store_recombined_wf. }
  assert (Hhit' : cache_hit (store l (recombined d c rw) s) ticker (clock_lookup w2) l).
  { destruct Hhit2 as [Hget _]. split; [exact Hget |].
    unfold deref, store. simpl. rewrite lookup_insert_eq. apply recombined_truthy. }
  destruct (analyze_on_hit py w2 data _ ticker weight l Hwf' Ht Hne Hw Hhit')
    as (d2 & r2 & a2 & Hd2 & Hr2 & Ha2 & Han2).
  unfold store in Hd2. simpl in Hd2. rewrite lookup_insert_eq in Hd2.
  injection Hd2 as <-.
  assert (Hkeys : ("rational_score" ∉ recombined_keys) /\
                  ("adaptive_score" ∉ recombined_keys)).
  { unfold recombined_keys. rewrite !not_elem_of_cons.
    repeat split; try discriminate; apply not_elem_of_nil. }
  destruct Hkeys as [Hkr Hka].
  rewrite recombined_lookup_other, Hr in Hr2 by assumption.
  rewrite recombined_lookup_other, Ha in Ha2 by assumption.
  injection Hr2 as <-. injection Ha2 as <-.
  simpl in Han2. fold rw c in Han2. rewrite recombined_idempotent in Han2.
  rewrite Han2. simpl.
  split; [reflexivity |]. split; [reflexivity |].
  split; [unfold store; simpl; now rewrite insert_insert_eq |].
  destruct (recombined_lookup_new d c rw) as (H1 & H2 & H3 & _).
  repeat constructor; eauto.
Qed.

Lemma recombination_idempotent_witness :
  let data := request_of (PStr "aapl") (PInt 80) in
  let first := analyze ascii_only cheap_world data warm_state in
  let second := analyze ascii_only priceless_world data (snd first) in
  status (fst first) = 200 /\ fst second = fst first /\ snd second = snd first.
Proof.
  destruct (recombination_idempotent ascii_only cheap_world priceless_world
              (request_of (PStr "aapl") (PInt 80)) warm_state "AAPL" 80 1%positive)
    as (H1 & H2 & H3 & _).
  - exact warm_state_reachable.
  - vm_compute. reflexivity.
  - discriminate.
  - vm_compute. reflexivity.
  - exact warm_state_hit.
  - exact warm_state_hit.
  - auto.
Defined.

(** ** Failure replies *)

Lemma request_ticker_missing (py : builtins) (data : pydict) :
  data !! "ticker" = None -> request_ticker py data = inr "".
Proof.
  intros H. unfold request_ticker, dict_get. rewrite H. reflexivity.
Qed.

Lemma analyze_miss_on_miss (py : builtins) (w : world)
    (data : pydict) (s : state) (ticker : string) (weight : Q) :
  request_ticker py data = inr ticker -> ticker <> "" ->
  request_weight py data = inr weight ->
  cache_miss s ticker (clock_lookup w) ->
  analyze_try py w data s = analyze_miss w ticker (weight / 100) s.
Proof.
  intros Ht Hne Hw Hmiss.
  rewrite (analyze_try_parsed py w data s ticker weight Ht Hw).
  apply string_truthy in Hne. rewrite Hne. simpl.
  destruct (get_cached_data s ticker (clock_lookup w)) as [l |] eqn:Hget; [| reflexivity].
  destruct (dict_truthy (deref s l)) eqn:Htruthy; [| reflexivity].
  destruct (Hmiss l). now split.
Qed.

(** C9, as amended: the handler reads the ticker and converts the weight
    before it looks at either.  With a weight that converts, an empty or
    missing ticker gets 400, and a ticker that misses the cache and is
    fetched without a usable current price gets 404.  Whatever raises in
    the handler (a ticker that is not a string, a weight that does not
    convert, even with an empty ticker, a failing fetch) gets 429 when its
    text contains "rate" in any letter case or "429", and otherwise 500
    with the text; none of these replies changes the state. *)
Theorem analyze_failure_replies (py : builtins) (w : world)
    (data : pydict) (s : state) :
  (forall weight,
     request_ticker py data = inr "" -> request_weight py data = inr weight ->
     analyze py w data s =
       (Reply 400 (error_payload "Please enter a ticker symbol"), s)) /\
  (forall weight,
     data !! "ticker" = None -> request_weight py data = inr weight ->
     analyze py w data s =
       (Reply 400 (error_payload "Please enter a ticker symbol"), s)) /\
  (forall ticker weight info,
     request_ticker py data = inr ticker -> ticker <> "" ->
     request_weight py data = inr weight ->
     cache_miss s ticker (clock_lookup w) ->
     stock_info w ticker = inr info ->
     truthy (dict_get info "currentPrice" (dict_get info "regularMarketPrice" PNone))
       = false ->
     analyze py w data s =
       (Reply 404 (error_payload
                     ("Could not fetch data for " ++ ticker
                        ++ ". Please check the ticker symbol or try again later.")), s)) /\
  (forall ticker weight e,
     request_ticker py data = inr ticker -> ticker <> "" ->
     request_weight py data = inr weight ->
     cache_miss s ticker (clock_lookup w) ->
     stock_info w ticker = inl e ->
     analyze py w data s = (on_exception py e, s)) /\
  (forall e, request_ticker py data = inl e ->
     analyze py w data s = (on_exception py e, s)) /\
  (forall ticker e,
     request_ticker py data = inr ticker -> request_weight py data = inl e ->
     analyze py w data s = (on_exception py e, s)) /\
  (forall e, analyze_try py w data s = inl e ->
     analyze py w data s = (on_exception py e, s)) /\
  (forall e,
     (contains "rate" (str_lower py (str_exn e)) || contains "429" (str_exn e) = true ->
      on_exception py e =
        Reply 429 (error_payload
                     "Rate limit reached. Please wait 15-20 minutes before trying again.")) /\
     (contains "rate" (str_lower py (str_exn e)) || contains "429" (str_exn e) = false ->
      on_exception py e = Reply 500 (error_payload ("Error: " ++ str_exn e)))).
Proof.
  assert (H400 : forall weight,
            request_ticker py data = inr "" -> request_weight py data = inr weight ->
            analyze py w data s =
              (Reply 400 (error_payload "Please enter a ticker symbol"), s)).
  { intros weight Ht Hw. unfold analyze.
    now rewrite (analyze_try_parsed py w data s "" weight Ht Hw). }
  split; [exact H400 |].
  split; [intros weight Hnone; apply H400; now apply request_ticker_missing |].
  split.
  { intros ticker weight info Ht Hne Hw Hmiss Hinfo Hprice. unfold analyze.
    rewrite (analyze_miss_on_miss py w data s ticker weight Ht Hne Hw Hmiss).
    unfold analyze_miss. rewrite Hinfo. simpl. now rewrite Hprice. }
  split.
  { intros ticker weight e Ht Hne Hw Hmiss Hinfo. unfold analyze.
    rewrite (analyze_miss_on_miss py w data s ticker weight Ht Hne Hw Hmiss).
    unfold analyze_miss. now rewrite Hinfo. }
  split.
  { intros e Ht. unfold analyze, analyze_try. now rewrite Ht. }
  split.
  { intros ticker e Ht Hw. unfold analyze, analyze_try. now rewrite Ht, Hw. }
  split.
  { intros e Htry. unfold analyze. now rewrite Htry. }
  intros e. unfold on_exception. split; intros ->; reflexivity.
Qed.

Lemma analyze_failure_replies_witness :
  status (fst (analyze ascii_only cheap_world (request_of (PStr "  ") (PInt 50)) state0))
    = 400 /\
  status (fst (analyze ascii_only priceless_world
                 (request_of (PStr "zzzz") (PInt 50)) state0)) = 404 /\
  status (fst (analyze ascii_only throttled_world
                 (request_of (PStr "aapl") (PInt 50)) state0)) = 429.
Proof.
  assert (Hmiss : forall ticker, cache_miss state0 ticker 0).
  { intros ticker l [Hget _]. vm_compute in Hget. discriminate. }
  split; [| split].
  - destruct (analyze_failure_replies ascii_only cheap_world
                (request_of (PStr "  ") (PInt 50)) state0) as (H400 & _).
    rewrite (H400 50%Q); [reflexivity | vm_compute; reflexivity | vm_compute; reflexivity].
  - destruct (analyze_failure_replies ascii_only priceless_world
                (request_of (PStr "zzzz") (PInt 50)) state0) as (_ & _ & H404 & _).
    rewrite (H404 "ZZZZ" 50%Q ∅); try (vm_compute; reflexivity);
      [discriminate | apply Hmiss].
  - destruct (analyze_failure_replies ascii_only throttled_world
                (request_of (PStr "aapl") (PInt 50)) state0) as (_ & _ & _ & H429 & _).
    rewrite (H429 "AAPL" 50%Q
               (Exn "Too Many Requests. Rate limited. Try after a while."));
      try (vm_compute; reflexivity); [discriminate | apply Hmiss].
Defined.

(** C9 as stated fails: an empty ticker sent with a weight of [null] is
    answered 500, not 400, since the weight is converted first. *)
Lemma empty_ticker_null_weight_is_500 :
  let data := request_of (PStr "") PNone in
  request_ticker ascii_only data = inr "" /\
  analyze ascii_only cheap_world data state0 =
    (Reply 500
       (error_payload
          "Error: float() argument must be a string or a real number, not 'NoneType'"),
     state0).
Proof. split; vm_compute; reflexivity. Qed.

(** * Further properties of the handler, the cache and the scorers *)

(** ** What one request can do *)

(** Every run of the handler is of one of five kinds: an exception answered
    by the [except] clause, the 400 of an empty ticker, the 404 of a
    missing price, a cache hit, or a fetch that is cached. *)
Lemma analyze_inv (py : builtins) (w : world) (data : pydict)
    (s s' : state) (r : reply) :
  analyze py w data s = (r, s') ->
  (exists e, analyze_try py w data s = inl e /\ r = on_exception py e /\ s' = s) \/
  (request_ticker py data = inr "" /\ status r = 400 /\ s' = s) \/
  (exists ticker, request_ticker py data = inr ticker /\ ticker <> "" /\
     status r = 404 /\ s' = s) \/
  (exists ticker weight l c,
     request_ticker py data = inr ticker /\ ticker <> "" /\
     request_weight py data = inr weight /\
     cache_hit s ticker (clock_lookup w) l /\
     r = Reply 200 (recombined (deref s l) c (weight / 100)) /\
     s' = store l (recombined (deref s l) c (weight / 100)) s) \/
  (exists ticker weight info price,
     request_ticker py data = inr ticker /\ ticker <> "" /\
     request_weight py data = inr weight /\
     cache_miss s ticker (clock_lookup w) /\
     stock_info w ticker = inr info /\
     let response :=
       response_of ticker info price (calculate_rational_score info)
         (calculate_adaptive_score (stock_history w ticker) info) (weight / 100) in
     let l := fresh (dom (heap s)) in
     r = Reply 200 response /\
     s' = cache_data ticker l (clock_store w)
            (State (<[l := response]> (heap s)) (cache s))).
Proof.
  unfold analyze.
  destruct (analyze_try py w data s) as [e | [r0 s0]] eqn:Htry.
  { intros H. injection H as <- <-. left. eauto. }
  intros H. injection H as -> ->. right.
  unfold analyze_try in Htry.
  destruct (request_ticker py data) as [e | ticker] eqn:Ht; [discriminate |].
  destruct (request_weight py data) as [e | weight] eqn:Hw; [discriminate |].
  simpl in Htry.
  destruct (String.eqb_spec ticker "") as [-> | Hne]; simpl in Htry.
  { injection Htry as <- <-. left. auto. }
  right.
  match goal with
  | |- ?G => assert (Hmiss : cache_miss s ticker (clock_lookup w) ->
                             analyze_miss w ticker (weight / 100) s = inr (r, s') -> G)
  end.
  { intros Hm Han.
    apply analyze_miss_inv in Han as [[H404 ->] | (info & price & Hinfo & Hr & Hs)].
    - left. exists ticker. auto.
    - right. right. exists ticker, weight, info, price. auto 10. }
  destruct (get_cached_data s ticker (clock_lookup w)) as [l |] eqn:Hget.
  2: { apply Hmiss; [| exact Htry]. intros l [Hl _]. congruence. }
  destruct (dict_truthy (deref s l)) eqn:Htruthy.
  2: { apply Hmiss; [| exact Htry]. intros l' [Hl Hd]. congruence. }
  apply analyze_hit_inv in Htry as (c & -> & ->).
  right. left. exists ticker, weight, l, c. repeat split; auto.
Qed.

(** The handler answers with one of five status codes. *)
Theorem analyze_status_cases (py : builtins) (w : world)
    (data : pydict) (s : state) :
  status (fst (analyze py w data s)) ∈ [200; 400; 404; 429; 500].
Proof.
  destruct (analyze py w data s) as [r s'] eqn:Han. simpl.
  apply analyze_inv in Han
    as [(e & _ & -> & _) | [(_ & -> & _) | [(t & _ & _ & -> & _) |
        [(t & wt & l & c & _ & _ & _ & _ & -> & _) |
         (t & wt & i & p & _ & _ & _ & _ & _ & -> & _)]]]];
    simpl; try set_solver.
  destruct (on_exception_status py e) as [-> | ->]; set_solver.
Qed.

(** A reply other than 200 leaves the cache and every cached object as
    they were: nothing is stored on a failure. *)
Theorem analyze_failure_keeps_state (py : builtins) (w : world)
    (data : pydict) (s : state) :
  status (fst (analyze py w data s)) <> 200 ->
  snd (analyze py w data s) = s.
Proof.
  destruct (analyze py w data s) as [r s'] eqn:Han. simpl.
  apply analyze_inv in Han
    as [(e & _ & _ & ->) | [(_ & _ & ->) | [(t & _ & _ & _ & ->) |
        [(t & wt & l & c & _ & _ & _ & _ & -> & _) |
         (t & wt & i & p & _ & _ & _ & _ & _ & -> & _)]]]];
    simpl; congruence.
Qed.

Lemma analyze_failure_keeps_state_witness :
  snd (analyze ascii_only throttled_world (request_of (PStr "msft") (PInt 50))
         warm_state) = warm_state.
Proof.
  apply (analyze_failure_keeps_state ascii_only throttled_world
           (request_of (PStr "msft") (PInt 50)) warm_state).
  vm_compute. discriminate.
Defined.

(** A request touches the cache entry of its own ticker only: the entry of
    every other ticker, reference and timestamp, is as before. *)
Theorem analyze_other_tickers_kept (py : builtins) (w : world)
    (data : pydict) (s : state) (other : string) :
  request_ticker py data <> inr other ->
  cache (snd (analyze py w data s)) !! other = cache s !! other.
Proof.
  intros Hother.
  destruct (analyze py w data s) as [r s'] eqn:Han. simpl.
  apply analyze_inv in Han
    as [(e & _ & _ & ->) | [(_ & _ & ->) | [(t & _ & _ & _ & ->) |
        [(t & wt & l & c & _ & _ & _ & _ & _ & ->) |
         (t & wt & i & p & Ht & _ & _ & _ & _ & _ & ->)]]]];
    try reflexivity.
  unfold cache_data. simpl. apply lookup_insert_ne. congruence.
Qed.

Lemma analyze_other_tickers_kept_witness :
  cache (snd (analyze ascii_only cheap_world (request_of (PStr "msft") (PInt 50))
                warm_state)) !! "AAPL" = cache warm_state !! "AAPL".
Proof.
  apply (analyze_other_tickers_kept ascii_only cheap_world
           (request_of (PStr "msft") (PInt 50)) warm_state "AAPL").
  vm_compute. discriminate.
Defined.

(** A request that carries no [rational_weight] is served as one with the
    weight 50. *)
Theorem analyze_default_weight (py : builtins) (w : world)
    (data : pydict) (s : state) :
  data !! "rational_weight" = None ->
  analyze py w data s =
    analyze py w (<["rational_weight" := PInt 50]> data) s.
Proof.
  intros Hnone. unfold analyze, analyze_try, request_ticker, request_weight, dict_get.
  rewrite Hnone, lookup_insert_eq, lookup_insert_ne by discriminate. reflexivity.
Qed.

Lemma analyze_default_weight_witness :
  analyze ascii_only cheap_world {[ "ticker" := PStr "aapl" ]} state0 =
    analyze ascii_only cheap_world
      (<["rational_weight" := PInt 50]> {[ "ticker" := PStr "aapl" ]}) state0.
Proof.
  apply (analyze_default_weight ascii_only cheap_world
           {[ "ticker" := PStr "aapl" ]} state0).
  reflexivity.
Defined.

(** ** The shape of a reply *)

Lemma response_of_combination ticker info price (rational adaptive : Z * list string)
    (w : Q) :
  let d := response_of ticker info price rational adaptive w in
  let c := combine (inject_Z (fst rational)) (inject_Z (fst adaptive)) w in
  d !! "recommendation" = Some (PStr (fst (bucket c))) /\
  d !! "signal_class" = Some (PStr (snd (bucket c))) /\
  d !! "rational_weight" = Some (PFloat w) /\
  d !! "adaptive_weight" = Some (PFloat (1 - w)).
Proof.
  unfold response_of. destruct (bucket _) as [rec sig]. simpl.
  repeat split; now simplify_map_eq.
Qed.

Lemma response_of_keys ticker info price (rational adaptive : Z * list string) (w : Q) :
  dom (response_of ticker info price rational adaptive w) = response_keys.
Proof.
  unfold response_of. destruct (bucket _) as [rec sig].
  rewrite dom_list_to_map_L. unfold response_keys, preserved_keys, recombined_keys.
  simpl. set_solver.
Qed.

Lemma recombined_keys_kept (d : pydict) (c w : Q) :
  dom d = response_keys -> dom (recombined d c w) = response_keys.
Proof.
  intros Hd. unfold recombined. destruct (bucket c) as [rec sig].
  rewrite !dom_insert_L, Hd. unfold response_keys, preserved_keys, recombined_keys.
  simpl. set_solver.
Qed.

Lemma recombined_response_of ticker info price (rational adaptive : Z * list string)
    (w : Q) :
  let d := response_of ticker info price rational adaptive w in
  recombined d (combine (inject_Z (fst rational)) (inject_Z (fst adaptive)) w) w = d.
Proof.
  intros d.
  destruct (response_of_scores ticker info price rational adaptive w) as (_ & _ & Hc).
  destruct (response_of_combination ticker info price rational adaptive w)
    as (Hrec & Hsig & Hrw & Haw).
  fold d in Hc, Hrec, Hsig, Hrw, Haw.
  unfold recombined.
  destruct (bucket _) as [rec sig]. simpl in Hrec, Hsig.
  rewrite (insert_id d "combined_score") by exact Hc.
  rewrite (insert_id d "recommendation") by exact Hrec.
  rewrite (insert_id d "signal_class") by exact Hsig.
  rewrite (insert_id d "rational_weight") by exact Hrw.
  now rewrite (insert_id d "adaptive_weight") by exact Haw.
Qed.

Lemma state0_keys_wf : cache_keys_wf state0.
Proof.
  intros ticker l t H. unfold state0 in H. simpl in H.
  rewrite lookup_empty in H. discriminate.
Qed.

Lemma analyze_preserves_keys_wf (py : builtins) (w : world)
    (data : pydict) (s : state) :
  cache_keys_wf s -> cache_keys_wf (snd (analyze py w data s)).
Proof.
  intros Hwf.
  destruct (analyze py w data s) as [r s'] eqn:Han. simpl.
  apply analyze_inv in Han
    as [(e & _ & _ & ->) | [(_ & _ & ->) | [(t & _ & _ & _ & ->) |
        [(t & wt & l & c & _ & _ & _ & _ & _ & ->) |
         (t & wt & i & p & _ & _ & _ & _ & _ & _ & ->)]]]];
    try assumption.
  - intros ticker l' t' Hc. simpl in Hc.
    destruct (Hwf ticker l' t' Hc) as (d & Hd & Hdom).
    unfold store, deref. simpl.
    destruct (decide (l = l')) as [-> | Hne].
    + rewrite Hd. simpl. rewrite lookup_insert_eq. eexists. split; [reflexivity |].
      now apply recombined_keys_kept.
    + rewrite lookup_insert_ne by assumption. eauto.
  - intros ticker l' t' Hc. unfold cache_data in *. simpl in *.
    destruct (decide (t = ticker)) as [-> | Hne].
    + rewrite lookup_insert_eq in Hc. injection Hc as <- <-.
      rewrite lookup_insert_eq. eexists. split; [reflexivity |].
      apply response_of_keys.
    + rewrite lookup_insert_ne in Hc by assumption.
      destruct (Hwf ticker l' t' Hc) as (d & Hd & Hdom).
      exists d. split; [| assumption].
      rewrite lookup_insert_ne; [assumption |].
      intros Heq. apply (is_fresh (dom (heap s))).
      apply elem_of_dom. exists d. now rewrite Heq.
Qed.

Lemma reachable_keys_wf (py : builtins) (s : state) :
  reachable py s -> cache_keys_wf s.
Proof.
  induction 1; [apply state0_keys_wf | now apply analyze_preserves_keys_wf].
Qed.

(** A 200 reply always carries the nineteen keys of a response, whether
    it was fetched or served from the cache. *)
Theorem successful_reply_keys (py : builtins) (w : world)
    (data : pydict) (s : state) :
  reachable py s ->
  status (fst (analyze py w data s)) = 200 ->
  dom (payload (fst (analyze py w data s))) = response_keys /\
  size response_keys = 19%nat.
Proof.
  intros Hreach Hstatus. split; [| reflexivity].
  apply reachable_keys_wf in Hreach.
  destruct (analyze py w data s) as [r s'] eqn:Han. simpl in *.
  apply analyze_inv in Han
    as [(e & _ & -> & _) | [(_ & H & _) | [(t & _ & _ & H & _) |
        [(t & wt & l & c & _ & _ & _ & Hhit & -> & _) |
         (t & wt & i & p & _ & _ & _ & _ & _ & -> & _)]]]];
    try congruence.
  - destruct (on_exception_status py e) as [H | H]; congruence.
  - simpl. destruct Hhit as [Hget _].
    destruct (get_cached_data_Some _ _ _ _ Hget) as [t0 Hc].
    destruct (Hreach t l t0 Hc) as (d & Hd & Hdom).
    unfold deref. rewrite Hd. simpl. now apply recombined_keys_kept.
  - simpl. apply response_of_keys.
Qed.

Lemma successful_reply_keys_witness :
  dom (payload (fst (analyze ascii_only cheap_world
                       (request_of (PStr "aapl") (PInt 80)) warm_state)))
    = response_keys.
Proof.
  apply (successful_reply_keys ascii_only cheap_world
           (request_of (PStr "aapl") (PInt 80)) warm_state).
  - apply reachable_step, reachable_init.
  - vm_compute. reflexivity.
Defined.



(** ** The life of a cache entry *)

(** An entry that a lookup finds at some time is found at every earlier
    time too (also by a clock that was set back), and one that has expired
    stays expired at every later time. *)
Theorem get_cached_data_monotone (s : state) (ticker : string) (t t' : Z) :
  t' <= t ->
  (forall l, get_cached_data s ticker t = Some l -> get_cached_data s ticker t' = Some l) /\
  (get_cached_data s ticker t' = None -> get_cached_data s ticker t = None).
Proof.
  intros Hle. unfold get_cached_data.
  destruct (cache s !! ticker) as [[l0 t0] |]; [| split; [discriminate | reflexivity]].
  destruct (Z.ltb_spec (t - t0) CACHE_DURATION), (Z.ltb_spec (t' - t0) CACHE_DURATION);
    split; try discriminate; try reflexivity; try lia; auto.
Qed.

Lemma get_cached_data_monotone_witness :
  get_cached_data warm_state "AAPL" (-7) = Some 1%positive.
Proof.
  destruct (get_cached_data_monotone warm_state "AAPL" 0 (-7)) as [Hhit _].
  - lia.
  - apply Hhit. vm_compute. reflexivity.
Defined.

(** Storing a result for one ticker does not change what a lookup of
    another ticker finds. *)
Theorem cache_data_other_ticker (s : state) (ticker other : string) (l : loc)
    (now t : Z) :
  ticker <> other ->
  get_cached_data (cache_data ticker l now s) other t = get_cached_data s other t.
Proof.
  intros Hne. unfold get_cached_data, cache_data. simpl.
  now rewrite lookup_insert_ne.
Qed.

Lemma cache_data_other_ticker_witness :
  get_cached_data (cache_data "MSFT" 2%positive 9 warm_state) "AAPL" 10 =
    get_cached_data warm_state "AAPL" 10.
Proof.
  apply (cache_data_other_ticker warm_state "MSFT" "AAPL" 2%positive 9 10).
  discriminate.
Defined.

(** After a 200 reply the cache holds, for the ticker of the request, an
    object equal to the reply that was sent. *)
Theorem successful_reply_is_cached (py : builtins) (w : world)
    (data : pydict) (s : state) :
  status (fst (analyze py w data s)) = 200 ->
  exists ticker l t,
    request_ticker py data = inr ticker /\
    cache (snd (analyze py w data s)) !! ticker = Some (l, t) /\
    heap (snd (analyze py w data s)) !! l =
      Some (payload (fst (analyze py w data s))).
Proof.
  destruct (analyze py w data s) as [r s'] eqn:Han. simpl. intros Hstatus.
  apply analyze_inv in Han
    as [(e & _ & -> & _) | [(_ & H & _) | [(t & _ & _ & H & _) |
        [(t & wt & l & c & Ht & _ & _ & [Hget _] & -> & ->) |
         (t & wt & i & p & Ht & _ & _ & _ & _ & -> & ->)]]]];
    try congruence.
  - destruct (on_exception_status py e) as [H | H]; congruence.
  - destruct (get_cached_data_Some _ _ _ _ Hget) as [t0 Hc].
    exists t, l, t0. split; [assumption |]. split; [exact Hc |].
    unfold store. simpl. apply lookup_insert_eq.
  - eexists t, _, _. split; [assumption |]. unfold cache_data. simpl.
    split; apply lookup_insert_eq.
Qed.

Lemma successful_reply_is_cached_witness :
  exists ticker l t,
    request_ticker ascii_only (request_of (PStr "aapl") (PInt 50)) = inr ticker /\
    cache warm_state !! ticker = Some (l, t) /\
    heap warm_state !! l =
      Some (payload (fst (analyze ascii_only cheap_world
                            (request_of (PStr "aapl") (PInt 50)) state0))).
Proof.
  apply (successful_reply_is_cached ascii_only cheap_world
           (request_of (PStr "aapl") (PInt 50)) state0).
  vm_compute. reflexivity.
Defined.

(** A result that was fetched is reused: when a request misses the cache
    and succeeds, the same request sent again less than ten minutes after
    the store gets the same reply and leaves the state as it is, whatever
    the provider would answer by then. *)
Theorem fetched_result_is_reused (py : builtins) (w1 w2 : world)
    (data : pydict) (s : state) (ticker : string) :
  reachable py s ->
  request_ticker py data = inr ticker ->
  cache_miss s ticker (clock_lookup w1) ->
  status (fst (analyze py w1 data s)) = 200 ->
  clock_lookup w2 - clock_store w1 < CACHE_DURATION ->
  let first := analyze py w1 data s in
  analyze py w2 data (snd first) = first.
Proof.
  intros Hreach Ht Hmiss Hstatus Hlive first.
  assert (Hwf1 : cache_wf (snd first))
    by (apply analyze_preserves_wf; now apply (reachable_wf py)).
  subst first.
  destruct (analyze py w1 data s) as [r s1] eqn:Han. simpl in *.
  apply analyze_inv in Han
    as [(e & _ & -> & _) | [(_ & H & _) | [(t & _ & _ & H & _) |
        [(t & wt & l & c & Ht' & _ & _ & Hhit & _ & _) |
         (t & wt & i & p & Ht' & Hne & Hw & _ & _ & -> & ->)]]]];
    try congruence.
  - destruct (on_exception_status py e) as [H | H]; congruence.
  - assert (t = ticker) by congruence. subst t. destruct (Hmiss l Hhit).
  - assert (t = ticker) by congruence. subst t.
    set (response := response_of ticker i p (calculate_rational_score i)
                       (calculate_adaptive_score (stock_history w1 ticker) i) (wt / 100))
      in *.
    pose proof (recombined_response_of ticker i p (calculate_rational_score i)
                  (calculate_adaptive_score (stock_history w1 ticker) i) (wt / 100))
      as Hsame.
    cbv zeta in Hsame. fold response in Hsame.
    set (l := fresh (dom (heap s))) in *.
    set (s1 := cache_data ticker l (clock_store w1)
                 (State (<[l := response]> (heap s)) (cache s))) in *.
    assert (Hheap : heap s1 !! l = Some response) by apply lookup_insert_eq.
    assert (Hhit : cache_hit s1 ticker (clock_lookup w2) l).
    { split.
      - unfold s1. rewrite get_cached_data_cache_data.
        destruct (Z.ltb_spec (clock_lookup w2 - clock_store w1) CACHE_DURATION);
          [reflexivity | lia].
      - unfold deref. rewrite Hheap. simpl. rewrite <- Hsame.
        apply recombined_truthy. }
    destruct (analyze_on_hit py w2 data s1 ticker wt l Hwf1 Ht Hne Hw Hhit)
      as (d & r & a & Hd & Hr & Ha & Han2).
    assert (d = response) by congruence. subst d.
    destruct (response_of_scores ticker i p (calculate_rational_score i)
                (calculate_adaptive_score (stock_history w1 ticker) i) (wt / 100))
      as (Hr' & Ha' & _).
    fold response in Hr', Ha'.
    assert (r = fst (calculate_rational_score i)) by congruence.
    assert (a = fst (calculate_adaptive_score (stock_history w1 ticker) i)) by congruence.
    subst r a. cbv zeta in Han2. rewrite Hsame in Han2.
    rewrite Han2. f_equal.
    unfold store, s1, cache_data. simpl. now rewrite insert_insert_eq.
Qed.

Lemma fetched_result_is_reused_witness :
  analyze ascii_only throttled_world (request_of (PStr "aapl") (PInt 50)) warm_state =
    analyze ascii_only cheap_world (request_of (PStr "aapl") (PInt 50)) state0.
Proof.
  apply (fetched_result_is_reused ascii_only cheap_world throttled_world
           (request_of (PStr "aapl") (PInt 50)) state0 "AAPL").
  - apply reachable_init.
  - vm_compute. reflexivity.
  - intros l [Hget _]. vm_compute in Hget. discriminate.
  - vm_compute. reflexivity.
  - vm_compute. reflexivity.
Defined.

(** An expired entry is replaced by the next successful request for its
    ticker: the cache then points to a new object stamped with the time of
    the store, and the object of the expired entry stays in the heap as it
    was. *)
Theorem stale_entry_is_replaced (py : builtins) (w : world)
    (data : pydict) (s : state) (ticker : string) (l0 : loc) (t0 : Z) :
  request_ticker py data = inr ticker ->
  cache s !! ticker = Some (l0, t0) ->
  CACHE_DURATION <= clock_lookup w - t0 ->
  status (fst (analyze py w data s)) = 200 ->
  let s' := snd (analyze py w data s) in
  exists l, cache s' !! ticker = Some (l, clock_store w) /\
            heap s !! l = None /\
            heap s' !! l = Some (payload (fst (analyze py w data s))) /\
            (forall l', l' <> l -> heap s' !! l' = heap s !! l').
Proof.
  intros Ht Hc Hstale Hstatus.
  destruct (analyze py w data s) as [r s1] eqn:Han. simpl in *.
  apply analyze_inv in Han
    as [(e & _ & -> & _) | [(_ & H & _) | [(t & _ & _ & H & _) |
        [(t & wt & l & c & Ht' & _ & _ & [Hget _] & _ & _) |
         (t & wt & i & p & Ht' & Hne & Hw & _ & _ & -> & ->)]]]];
    try congruence.
  - destruct (on_exception_status py e) as [H | H]; congruence.
  - assert (t = ticker) by congruence. subst t.
    unfold get_cached_data in Hget. rewrite Hc in Hget.
    destruct (Z.ltb_spec (clock_lookup w - t0) CACHE_DURATION); [lia | discriminate].
  - assert (t = ticker) by congruence. subst t.
    exists (fresh (dom (heap s))). unfold cache_data. simpl.
    split; [apply lookup_insert_eq |].
    split; [apply not_elem_of_dom, is_fresh |].
    split; [apply lookup_insert_eq |].
    intros l' Hl'. now apply lookup_insert_ne.
Qed.

Lemma stale_entry_is_replaced_witness :
  let w := World (fun _ => inr cheap_snapshot) (fun _ => inr []) 600000005 600000009 in
  exists l,
    cache (snd (analyze ascii_only w (request_of (PStr "aapl") (PInt 50)) warm_state))
      !! "AAPL" = Some (l, 600000009) /\
    heap warm_state !! l = None.
Proof.
  intros w.
  destruct (stale_entry_is_replaced ascii_only w (request_of (PStr "aapl") (PInt 50))
              warm_state "AAPL" 1%positive 5) as (l & H1 & H2 & _).
  - vm_compute. reflexivity.
  - vm_compute. reflexivity.
  - vm_compute. discriminate.
  - vm_compute. reflexivity.
  - exists l. auto.
Defined.

(** ** What the scorers can return *)

Ltac rule_cases :=
  repeat (match goal with
          | |- context [truthy ?v] => destruct (truthy v)
          | |- context [as_num ?v] => destruct (as_num v)
          | |- context [Qltb ?a ?b] => destruct (Qltb a b)
          | |- context [Qeq_bool ?a ?b] => destruct (Qeq_bool a b)
          | |- context [(?a <=? ?b)%nat] => destruct (a <=? b)%nat
          end; cbn [mbind option_bind]);
  try discriminate;
  intros Hrule; injection Hrule as <-; unfold rule_effect, adjust; simpl;
  rewrite ?length_app; simpl; repeat split; try lia.

Lemma rule_pe_effect (info : pydict) (st st' : tally) :
  rule_pe info st = Some st' -> rule_effect (-20) 20 st st'.
Proof. unfold rule_pe. rule_cases. Qed.

Lemma rule_peg_effect (info : pydict) (st st' : tally) :
  rule_peg info st = Some st' -> rule_effect (-15) 15 st st'.
Proof. unfold rule_peg. rule_cases. Qed.

Lemma rule_price_to_book_effect (info : pydict) (st st' : tally) :
  rule_price_to_book info st = Some st' -> rule_effect (-15) 10 st st'.
Proof. unfold rule_price_to_book. rule_cases. Qed.

Lemma rule_profit_margin_effect (info : pydict) (st st' : tally) :
  rule_profit_margin info st = Some st' -> rule_effect (-10) 10 st st'.
Proof. unfold rule_profit_margin. rule_cases. Qed.

Lemma rule_ma50_effect (df : list bar) (st st' : tally) :
  rule_ma50 df st = Some st' -> rule_effect (-15) 15 st st'.
Proof. unfold rule_ma50. rule_cases. Qed.

Lemma rule_ma200_effect (df : list bar) (st st' : tally) :
  rule_ma200 df st = Some st' -> rule_effect (-20) 20 st st'.
Proof. unfold rule_ma200. rule_cases. Qed.

Lemma rule_ma200_short (df : list bar) (st : tally) :
  (length df < 200)%nat -> rule_ma200 df st = Some st.
Proof.
  intros Hlen. unfold rule_ma200.
  destruct (Nat.leb_spec 200 (length df)); [lia | reflexivity].
Qed.

Lemma rule_rsi_effect (df : list bar) (st st' : tally) :
  rule_rsi df st = Some st' -> rule_effect (-15) 15 st st'.
Proof. unfold rule_rsi. rule_cases. Qed.

Lemma rule_range_effect (df : list bar) (info : pydict) (st st' : tally) :
  rule_range df info st = Some st' -> rule_effect (-10) 10 st st'.
Proof. unfold rule_range. rule_cases. Qed.

Lemma try_rules_cons (r : rule) (rules : list rule) (st : tally) :
  (r st = None /\ try_rules (r :: rules) st = st) \/
  (exists st', r st = Some st' /\ try_rules (r :: rules) st = try_rules rules st').
Proof.
  simpl. destruct (r st) as [st' |]; [right | left]; eauto.
Qed.

Ltac step_rule effect :=
  match goal with
  | |- context [try_rules (?r :: ?rules) ?st] =>
      let st' := fresh "st" in
      let Hr := fresh "Hr" in
      let Heq := fresh "Heq" in
      destruct (try_rules_cons r rules st) as [[_ Heq] | (st' & Hr & Heq)];
      rewrite Heq; clear Heq;
      [| let He := fresh "He" in
         pose proof Hr as He; apply effect in He; destruct He as (? & ? & ?)]
  end.

(** Before clamping, the rational score lies between -60 and 55; the
    scorer gives at most four reasons, and a result without reasons has
    score 0. *)
Theorem rational_score_shape (info : pydict) :
  -60 <= score (rational_tally info) <= 55 /\
  (length (snd (calculate_rational_score info)) <= 4)%nat /\
  (snd (calculate_rational_score info) = [] -> fst (calculate_rational_score info) = 0).
Proof.
  unfold calculate_rational_score, rational_tally. cbv zeta. cbn [fst snd].
  assert (H0 : score tally0 = 0 /\ length (reasons tally0) = 0%nat) by (split; reflexivity).
  destruct H0 as [Hs0 Hl0]. revert Hs0 Hl0. generalize tally0 as st0. intros st0 Hs0 Hl0.
  assert (Hnil : forall st : tally, reasons st = [] -> length (reasons st) = 0%nat)
    by (intros st ->; reflexivity).
  step_rule rule_pe_effect;
    [| step_rule rule_peg_effect;
       [| step_rule rule_price_to_book_effect;
          [| step_rule rule_profit_margin_effect ]]];
    cbn [try_rules];
    (split; [lia |]); (split; [lia |]);
    intros Hempty; apply Hnil in Hempty;
    repeat match goal with
      | H : length (reasons ?a) = length (reasons ?b) -> ?a = ?b |- _ =>
          let E := fresh "E" in
          assert (E : a = b) by (apply H; lia); clear H; subst a
      end;
    rewrite Hs0; reflexivity.
Qed.

(** The adaptive scorer gives at most four reasons, and a result without
    reasons has score 0.  On a history of fewer than 200 bars the 200-day
    rule is not applied: the score lies between -40 and 40 and there are
    at most three reasons. *)
Theorem adaptive_score_shape (history : result (list bar)) (info : pydict) :
  (length (snd (calculate_adaptive_score history info)) <= 4)%nat /\
  (snd (calculate_adaptive_score history info) = [] ->
   fst (calculate_adaptive_score history info) = 0) /\
  (forall df, history = inr df -> (length df < 200)%nat ->
     -40 <= fst (calculate_adaptive_score history info) <= 40 /\
     (length (snd (calculate_adaptive_score history info)) <= 3)%nat).
Proof.
  unfold calculate_adaptive_score.
  destruct history as [e | df].
  { simpl. split; [lia |]. split; [reflexivity |]. intros df H. discriminate. }
  destruct (length df <? 50)%nat.
  { simpl. split; [lia |]. split; [discriminate |]. intros df' _ _. split; lia. }
  cbv zeta; cbn [fst snd].
  assert (H0 : score tally0 = 0 /\ length (reasons tally0) = 0%nat) by (split; reflexivity).
  destruct H0 as [Hs0 Hl0]. revert Hs0 Hl0. generalize tally0 as st0. intros st0 Hs0 Hl0.
  assert (Hnil : forall st : tally, reasons st = [] -> length (reasons st) = 0%nat)
    by (intros st ->; reflexivity).
  assert (Hshort : forall df', @inr exn _ df = inr df' -> (length df' < 200)%nat ->
                               forall st, rule_ma200 df st = Some st).
  { intros df' Heq Hlen st. injection Heq as <-. now apply rule_ma200_short. }
  step_rule rule_ma50_effect;
    [| step_rule rule_ma200_effect;
       [| step_rule rule_rsi_effect;
          [| step_rule rule_range_effect ]]];
    cbn [try_rules];
    (split; [lia |]);
    (split;
     [ intros Hempty; apply Hnil in Hempty;
       repeat match goal with
         | H : length (reasons ?a) = length (reasons ?b) -> ?a = ?b |- _ =>
             let E := fresh "E" in
             assert (E : a = b) by (apply H; lia); clear H; subst a
         end;
       rewrite Hs0; reflexivity
     | intros df' Heq Hlen; specialize (Hshort df' Heq Hlen);
       repeat match goal with
         | H : rule_ma200 df ?a = _ |- _ =>
             rewrite Hshort in H; first [discriminate | injection H as <-]
         end;
       unfold clamp; split; lia ]).
Qed.

Lemma rational_score_shape_witness : fst (calculate_rational_score ∅) = 0.
Proof.
  destruct (rational_score_shape ∅) as (_ & _ & Hnone).
  apply Hnone. reflexivity.
Defined.

Lemma adaptive_score_shape_witness :
  -40 <= fst (calculate_adaptive_score (inr rising_history) ∅) <= 40.
Proof.
  destruct (adaptive_score_shape (inr rising_history) ∅) as (_ & _ & Hshort).
  apply (Hshort rising_history); [reflexivity | vm_compute; lia].
Defined.

(** ** Fail-soft scoring *)

(** A P/E ratio that is not a number (and not empty), or an industry P/E
    that is present without being a number, ends the rational scorer at
    its first rule: the score is 0 and there are no reasons, whatever the
    PEG ratio, the price-to-book ratio and the profit margin are. *)
Theorem rational_score_bad_pe (info : pydict) :
  truthy (dict_get info "trailingPE" PNone) = true ->
  as_num (dict_get info "trailingPE" PNone) = None \/
  as_num (dict_get info "industryPE" (PInt 25)) = None ->
  calculate_rational_score info = (0, []).
Proof.
  intros Htruthy Hbad.
  assert (Hraise : rule_pe info tally0 = None).
  { unfold rule_pe. rewrite Htruthy.
    destruct Hbad as [-> | ->]; [| reflexivity].
    destruct (as_num (dict_get info "industryPE" (PInt 25))); reflexivity. }
  unfold calculate_rational_score, rational_tally. simpl. now rewrite Hraise.
Qed.

Lemma rational_score_bad_pe_witness :
  calculate_rational_score (<["trailingPE" := PStr "Infinity"]> cheap_snapshot) = (0, []).
Proof.
  apply (rational_score_bad_pe (<["trailingPE" := PStr "Infinity"]> cheap_snapshot)).
  - reflexivity.
  - left. reflexivity.
Defined.

(** A failing history fetch or malformed fundamentals never fail the
    request: once the ticker and the weight are read, the cache is missed
    and the provider returns fundamentals with a usable price, the reply is
    200. *)
Theorem scorer_failures_do_not_fail_request (py : builtins)
    (w : world) (data : pydict) (s : state) (ticker : string) (weight : Q)
    (info : pydict) :
  request_ticker py data = inr ticker -> ticker <> "" ->
  request_weight py data = inr weight ->
  cache_miss s ticker (clock_lookup w) ->
  stock_info w ticker = inr info ->
  truthy (dict_get info "currentPrice" (dict_get info "regularMarketPrice" PNone)) = true ->
  status (fst (analyze py w data s)) = 200.
Proof.
  intros Ht Hne Hw Hmiss Hinfo Hprice. unfold analyze.
  rewrite (analyze_miss_on_miss py w data s ticker weight Ht Hne Hw Hmiss).
  unfold analyze_miss. rewrite Hinfo. simpl. rewrite Hprice. reflexivity.
Qed.

Lemma scorer_failures_do_not_fail_request_witness :
  let w := World (fun _ => inr (<["trailingPE" := PStr "Infinity"]> cheap_snapshot))
                 (fun _ => raise "No data found, symbol may be delisted") 0 5 in
  status (fst (analyze ascii_only w (request_of (PStr "aapl") (PInt 50)) state0)) = 200.
Proof.
  intros w.
  apply (scorer_failures_do_not_fail_request ascii_only w
           (request_of (PStr "aapl") (PInt 50)) state0 "AAPL" 50
           (<["trailingPE" := PStr "Infinity"]> cheap_snapshot)).
  - vm_compute. reflexivity.
  - discriminate.
  - vm_compute. reflexivity.
  - intros l [Hget _]. vm_compute in Hget. discriminate.
  - reflexivity.
  - vm_compute. reflexivity.
Defined.

(** ** What the scorers read *)

Lemma agree_on_get (keys : list string) (d d' : pydict) (k : string) (default : pyval) :
  agree_on keys d d' -> k ∈ keys -> dict_get d k default = dict_get d' k default.
Proof.
  intros Hagree Hk. unfold dict_get.
  unfold agree_on in Hagree. rewrite Forall_forall in Hagree.
  now rewrite (Hagree k Hk).
Qed.

(** The rational score depends on [info] through five keys only: two
    snapshots that agree on the P/E ratio, the industry P/E, the PEG ratio,
    the price-to-book ratio and the profit margin get the same score and
    reasons.  The forward P/E is read and not used. *)
Theorem rational_score_reads_five_keys (info info' : pydict) :
  agree_on rational_keys info info' ->
  calculate_rational_score info = calculate_rational_score info'.
Proof.
  intros Hagree.
  assert (Hget : forall k default, k ∈ rational_keys ->
                   dict_get info k default = dict_get info' k default)
    by (intros; now apply (agree_on_get rational_keys)).
  unfold calculate_rational_score, rational_tally, rule_pe, rule_peg,
    rule_price_to_book, rule_profit_margin.
  rewrite !Hget by (unfold rational_keys; set_solver). reflexivity.
Qed.

Lemma rational_score_reads_five_keys_witness :
  calculate_rational_score (<["forwardPE" := PFloat 3]> cheap_snapshot) =
    calculate_rational_score cheap_snapshot.
Proof.
  apply (rational_score_reads_five_keys (<["forwardPE" := PFloat 3]> cheap_snapshot)
           cheap_snapshot).
  unfold agree_on, rational_keys. repeat constructor.
Defined.

(** The adaptive score depends on [info] through the two 52-week bounds
    only. *)
Theorem adaptive_score_reads_two_keys (history : result (list bar))
    (info info' : pydict) :
  agree_on adaptive_keys info info' ->
  calculate_adaptive_score history info = calculate_adaptive_score history info'.
Proof.
  intros Hagree.
  assert (Hget : forall k default, k ∈ adaptive_keys ->
                   dict_get info k default = dict_get info' k default)
    by (intros; now apply (agree_on_get adaptive_keys)).
  unfold calculate_adaptive_score, rule_range.
  destruct history as [e | df]; [reflexivity |].
  rewrite !Hget by (unfold adaptive_keys; set_solver). reflexivity.
Qed.

Lemma adaptive_score_reads_two_keys_witness :
  calculate_adaptive_score (inr rising_history) cheap_snapshot =
    calculate_adaptive_score (inr rising_history) ∅.
Proof.
  apply (adaptive_score_reads_two_keys (inr rising_history) cheap_snapshot ∅).
  unfold agree_on, adaptive_keys. repeat constructor.
Defined.

(** ** The ticker of a request *)

Lemma upper_ascii_idem (c : ascii) : upper_ascii (upper_ascii c) = upper_ascii c.
Proof. destruct c as [[] [] [] [] [] [] [] []]; reflexivity. Qed.

Lemma upper_lower_ascii (c : ascii) : upper_ascii (lower_ascii c) = upper_ascii c.
Proof. destruct c as [[] [] [] [] [] [] [] []]; reflexivity. Qed.

Lemma is_space_upper_ascii (c : ascii) : is_space (upper_ascii c) = is_space c.
Proof. destruct c as [[] [] [] [] [] [] [] []]; reflexivity. Qed.

Lemma upper_idem (s : string) : upper (upper s) = upper s.
Proof.
  unfold upper. induction s as [| c s IH]; simpl; [reflexivity |].
  now rewrite upper_ascii_idem, IH.
Qed.

Lemma upper_lower (s : string) : upper (lower s) = upper s.
Proof.
  unfold upper, lower. induction s as [| c s IH]; simpl; [reflexivity |].
  now rewrite upper_lower_ascii, IH.
Qed.

Lemma upper_lstrip (s : string) : upper (lstrip s) = lstrip (upper s).
Proof.
  unfold upper. induction s as [| c s IH]; simpl; [reflexivity |].
  rewrite is_space_upper_ascii. destruct (is_space c); [exact IH | reflexivity].
Qed.

Lemma upper_rstrip (s : string) : upper (rstrip s) = rstrip (upper s).
Proof.
  unfold upper. induction s as [| c s IH]; simpl; [reflexivity |].
  rewrite <- IH, is_space_upper_ascii.
  destruct (rstrip s) as [| a t]; simpl; [destruct (is_space c) |]; reflexivity.
Qed.

Lemma upper_strip (s : string) : upper (strip s) = strip (upper s).
Proof. unfold strip. now rewrite upper_rstrip, upper_lstrip. Qed.

Lemma lstrip_starts_clean (s : string) : starts_clean (lstrip s).
Proof.
  induction s as [| c s IH]; simpl; [exact I |].
  destruct (is_space c) eqn:Hc; [exact IH | exact Hc].
Qed.

Lemma lstrip_clean (s : string) : starts_clean s -> lstrip s = s.
Proof. destruct s as [| c s]; simpl; [reflexivity |]. now intros ->. Qed.

Lemma rstrip_starts_clean (s : string) : starts_clean s -> starts_clean (rstrip s).
Proof.
  destruct s as [| c s]; simpl; [exact id |]. intros Hc.
  destruct (rstrip s); [rewrite Hc |]; exact Hc.
Qed.

Lemma rstrip_idem (s : string) : rstrip (rstrip s) = rstrip s.
Proof.
  induction s as [| c s IH]; simpl; [reflexivity |].
  destruct (rstrip s) as [| a t] eqn:Hr.
  - destruct (is_space c) eqn:Hc; simpl; [reflexivity | now rewrite Hc].
  - change (rstrip (String c (String a t))) with
      (match rstrip (String a t) with
       | EmptyString => if is_space c then EmptyString else String c EmptyString
       | u => String c u
       end).
    now rewrite IH.
Qed.

Lemma strip_idem (s : string) : strip (strip s) = strip s.
Proof.
  unfold strip.
  rewrite (lstrip_clean (rstrip (lstrip s)))
    by apply rstrip_starts_clean, lstrip_starts_clean.
  apply rstrip_idem.
Qed.

Lemma upper_ascii_is_ascii (c : ascii) :
  (nat_of_ascii (upper_ascii c) <? 128)%nat = (nat_of_ascii c <? 128)%nat.
Proof. destruct c as [[] [] [] [] [] [] [] []]; reflexivity. Qed.

Lemma lower_ascii_is_ascii (c : ascii) :
  (nat_of_ascii (lower_ascii c) <? 128)%nat = (nat_of_ascii c <? 128)%nat.
Proof. destruct c as [[] [] [] [] [] [] [] []]; reflexivity. Qed.

Lemma is_ascii_upper (s : string) : is_ascii (upper s) = is_ascii s.
Proof.
  unfold upper. induction s as [| c s IH]; simpl; [reflexivity |].
  now rewrite upper_ascii_is_ascii, IH.
Qed.

Lemma is_ascii_lower (s : string) : is_ascii (lower s) = is_ascii s.
Proof.
  unfold lower. induction s as [| c s IH]; simpl; [reflexivity |].
  now rewrite lower_ascii_is_ascii, IH.
Qed.

Lemma is_ascii_lstrip (s : string) : is_ascii s = true -> is_ascii (lstrip s) = true.
Proof.
  induction s as [| c s IH]; simpl; [reflexivity |]. intros H.
  destruct (is_space c); [| exact H].
  apply IH. now apply andb_true_iff in H.
Qed.

Lemma is_ascii_rstrip (s : string) : is_ascii s = true -> is_ascii (rstrip s) = true.
Proof.
  induction s as [| c s IH]; simpl; [reflexivity |]. intros H.
  apply andb_true_iff in H as [Hc Hs]. specialize (IH Hs).
  destruct (rstrip s) as [| a t].
  - destruct (is_space c); simpl; [reflexivity | now rewrite Hc].
  - change (is_ascii (String c (String a t)))
      with ((nat_of_ascii c <? 128)%nat && is_ascii (String a t)).
    now rewrite Hc, IH.
Qed.

Lemma is_ascii_strip (s : string) : is_ascii s = true -> is_ascii (strip s) = true.
Proof. intros H. unfold strip. now apply is_ascii_rstrip, is_ascii_lstrip. Qed.

(** On a ticker of ASCII characters, normalising is idempotent and blind
    to letter case: the ticker the handler derives from the text is
    derived again from itself, and from the lower-cased text, so all
    spellings of a ticker share one cache key. *)
Theorem request_ticker_normalised (py : builtins) (data : pydict) (s ticker : string) :
  data !! "ticker" = Some (PStr s) ->
  is_ascii s = true ->
  request_ticker py data = inr ticker ->
  request_ticker py (<["ticker" := PStr ticker]> data) = inr ticker /\
  request_ticker py (<["ticker" := PStr (lower s)]> data) = inr ticker.
Proof.
  unfold request_ticker, dict_get. intros -> Hs H. simpl in H.
  unfold str_upper, str_strip in *.
  rewrite Hs, is_ascii_upper, Hs in H. injection H as <-.
  rewrite !lookup_insert_eq. simpl. unfold str_upper, str_strip.
  assert (Hu : is_ascii (strip (upper s)) = true)
    by (apply is_ascii_strip; now rewrite is_ascii_upper).
  rewrite Hu, is_ascii_upper, Hu, is_ascii_lower, Hs, is_ascii_upper, is_ascii_lower, Hs.
  split; f_equal.
  - now rewrite <- upper_strip, strip_idem, upper_strip, upper_idem.
  - now rewrite upper_lower.
Qed.

Lemma request_ticker_normalised_witness :
  request_ticker ascii_only
    (<["ticker" := PStr "BRK.B"]> (request_of (PStr "  brk.b ") (PInt 50)))
    = inr "BRK.B".
Proof.
  apply (request_ticker_normalised ascii_only
           (request_of (PStr "  brk.b ") (PInt 50)) "  brk.b ").
  - reflexivity.
  - reflexivity.
  - vm_compute. reflexivity.
Defined.

(** ** The reported combined score *)






(** ** Buckets *)

(** The buckets are the intervals below -20, from -20 to below -5, from -5
    to 5, above 5 up to 20 and above 20, and they mirror each other:
    negating the combined score turns STRONG BUY into STRONG SELL and BUY
    into SELL, and keeps HOLD. *)
Theorem bucket_mirror (c : Q) :
  (bucket c = ("STRONG BUY", "strong-buy") <->
   bucket (- c) = ("STRONG SELL", "strong-sell")) /\
  (bucket c = ("BUY", "buy") <-> bucket (- c) = ("SELL", "sell")) /\
  (bucket c = ("HOLD", "hold") <-> bucket (- c) = ("HOLD", "hold")) /\
  (bucket c = ("STRONG BUY", "strong-buy") <-> (c < -20)%Q) /\
  (bucket c = ("BUY", "buy") <-> (-20 <= c < -5)%Q) /\
  (bucket c = ("HOLD", "hold") <-> (-5 <= c <= 5)%Q) /\
  (bucket c = ("SELL", "sell") <-> (5 < c <= 20)%Q) /\
  (bucket c = ("STRONG SELL", "strong-sell") <-> (20 < c)%Q).
Proof.
  destruct (bucket_spec c) as [[H E] | [[H E] | [[H E] | [[H E] | [H E]]]]];
    destruct (bucket_spec (- c)) as [[H' E'] | [[H' E'] | [[H' E'] | [[H' E'] | [H' E']]]]];
    rewrite E, E'; try lra;
    repeat split; intros; try discriminate; try lra; try reflexivity.
Qed.

(** ** Failure replies carry one message *)

(** A reply other than 200 is a dictionary with the single key [error]
    and a text as its value. *)
Theorem failure_reply_is_error (py : builtins) (w : world) (data : pydict) (s : state) :
  status (fst (analyze py w data s)) <> 200 ->
  exists msg, payload (fst (analyze py w data s)) = {[ "error" := PStr msg ]}.
Proof.
  unfold analyze.
  destruct (analyze_try py w data s) as [e | [r s']] eqn:Htry; simpl.
  { intros _. unfold on_exception. destruct (_ || _); simpl; eauto. }
  intros Hstatus. unfold analyze_try in Htry.
  destruct (request_ticker py data) as [e | ticker]; [discriminate |].
  destruct (request_weight py data) as [e | weight]; [discriminate |].
  simpl in Htry.
  destruct (negb (String.eqb ticker "")).
  2: { injection Htry as <- _. simpl. eauto. }
  assert (Hmiss : analyze_miss w ticker (weight / 100) s = inr (r, s') ->
                  exists msg, payload r = {[ "error" := PStr msg ]}).
  { unfold analyze_miss.
    destruct (stock_info w ticker) as [e | info]; [discriminate |]. simpl.
    destruct (negb (truthy _)); intros H; injection H as <- _; simpl in *;
      [eauto | congruence]. }
  destruct (get_cached_data s ticker (clock_lookup w)) as [l |]; [| auto].
  destruct (dict_truthy (deref s l)); [| auto].
  apply analyze_hit_inv in Htry as (c & -> & _). simpl in Hstatus. congruence.
Qed.

Lemma failure_reply_is_error_witness :
  exists msg,
    payload (fst (analyze ascii_only priceless_world
                    (request_of (PStr "zzzz") (PInt 50)) state0))
      = {[ "error" := PStr msg ]}.
Proof.
  apply (failure_reply_is_error ascii_only priceless_world
           (request_of (PStr "zzzz") (PInt 50)) state0).
  vm_compute. discriminate.
Defined.
